(** * Session protocol of the Python-WASM launcher

    A shallow embedding of [src/common/launcher.ts] (class [BaseLauncher])
    and of the extension entry point ([preloadPython] and the code that
    awaits its promise), together with the properties of the session
    life cycle.

    [BaseLauncher.doRun] is an [async] method: it runs synchronously up to
    an [await], is suspended there, and is resumed when the awaited promise
    settles.  It is embedded as a transition function on a [world]: the
    fields of the launcher object, the suspended activation of [doRun]
    (its control point and the locals in scope), the host microtask queue
    and the chronological trace of the calls the launcher makes on its
    collaborators.  The inputs of the transition function are the things
    the launcher does not decide: the calls of its owner ([run], [debug],
    [startRepl], [terminate], a reaction attached to [onExit()]) and the
    settlement of each promise it awaits.  A promise that never settles is
    an input that never arrives.  The calls [doRun] makes on its
    collaborators between two [await]s ([listen], [onNotification],
    [sendRequest], the constructor of [ApiService],
    [registerCharacterDeviceDriver], [signalReady]) are taken to return. *)

From Stdlib Require Import ZArith List String Bool Arith Lia Permutation.
From ExtLib Require Import Structures.Monad.
Import ListNotations.
Local Open Scope string_scope.
Local Open Scope list_scope.

(** ** Promises *)

Definition reason := string.

(** How a promise has settled. *)
Inductive outcome (A : Type) : Type :=
| Fulfilled (a : A)
| Rejected (r : reason).
Arguments Fulfilled {A} a.
Arguments Rejected {A} r.

(** The state of a promise; [None] is pending. *)
Definition promise (A : Type) : Type := option (outcome A).

Definition outcome_map {A B : Type} (f : A -> B) (o : outcome A) : outcome B :=
  match o with
  | Fulfilled a => Fulfilled (f a)
  | Rejected r => Rejected r
  end.

(** The values that flow through the reaction chain of the run request:
    the exit code of the worker, and [undefined], which the arrow
    functions of the chain return. *)
Inductive value : Type :=
| VNumber (n : Z)
| VUndefined.

(** ** The message channel *)

Module Channel.

(** Modelled from the spec: the life cycle of the message channel, whose
    implementation ([createMessageConnection] and [terminateConnection]
    are abstract in [BaseLauncher]) is not part of the sources.  The spec
    gives the channel the life cycle created, listening, closed, and says
    that closing it is idempotent and safe to repeat. *)
Inductive lifecycle : Type := created | listening | closed.

Definition listen (c : lifecycle) : lifecycle :=
  match c with
  | created => listening
  | listening => listening
  | closed => closed
  end.

Definition close (c : lifecycle) : lifecycle := closed.

End Channel.

(** ** Data of the launcher *)

Module Launcher.

Inductive mode : Type := Run | Debug | Repl.

Definition ServicePseudoTerminal := nat.
Definition Terminal := nat.
Definition Port := nat.
Definition MessageConnection := nat.
Definition Uri := string.
Definition SharedBytes := list nat.
Definition PathMapping := list (string * Uri).

Record DebugCharacterDeviceDriver : Type := {
  driver : nat;
  uri : Uri
}.

(** [repository.toString(true)] *)
Definition Uri_toString (u : Uri) (skipEncoding : bool) : string := u.

Record LauncherState : Type := {
  mode_of : mode;
  pty : ServicePseudoTerminal;
  program : option string
}.

(** The parameters of [doRun]; the optional ones are absent in the
    overloads that do not take them. *)
Record args : Type := {
  a_mode : mode;
  a_pty : ServicePseudoTerminal;
  a_program : option string;
  a_debugPorts : option DebugCharacterDeviceDriver;
  a_terminator : option string
}.

(** What [PythonInstallation.getConfig()] resolves to. *)
Record Config : Type := {
  repository : Uri;
  root : string
}.

(** The destructured result of the [Promise.all] of line 124. *)
Record boot : Type := {
  b_config : Config;
  sharedWasmBytes : SharedBytes;
  messageConnection : MessageConnection
}.

(** The requests of [MessageRequests].  [program!], [debugPorts!.uri] and
    [terminator!] are passed as they are at run time. *)
Inductive request : Type :=
| initialize (pythonRepository : string) (pythonRoot : string) (binary : SharedBytes)
| executeFile (syncPort : Port) (file : option string)
| debugFile (syncPort : Port) (file : option string) (debugUri : option Uri)
    (terminator : option string)
| runRepl (syncPort : Port).

Inductive device : Type :=
| PtyDevice (p : ServicePseudoTerminal)
| DebugDevice (d : option DebugCharacterDeviceDriver).

(** Who calls [terminateConnection]: [terminate()] or the [finally]
    handler of the run request. *)
Inductive site : Type := ByTerminate | ByFinally.

(** The calls the launcher makes, in the order it makes them. *)
Inductive event : Type :=
| GetConfig
| SharedWasmBytes
| CreateMessageConnection
| Listen (c : MessageConnection)
| OnNotification (c : MessageConnection) (name : string)
| SendRequest (c : MessageConnection) (r : request) (transfer : list Port)
| CreateSyncConnection (c : MessageConnection)
| NewApiService (name : string)
| RegisterCharacterDeviceDriver (d : device) (isPrimary : bool)
| SignalReady
| ExitResolveCallback (rval : value)
| ExitRejectCallback (r : reason)
| ExitObserved (o : outcome value)
| TerminateConnection (s : site)
| SendText (t : Terminal) (text : string) (addNewLine : bool)
| FirePathMapping (m : PathMapping).

(** The reaction chain of lines 156-159, one link per method call. *)
Inductive link : Type :=
| Then_exitResolve      (* .then((rval) => { this.exitResolveCallback(rval); }) *)
| Catch_exitReject      (* .catch((reason) => { this.exitRejectCallback(reason); }) *)
| Finally_terminate.    (* .finally(() => { void this.terminateConnection(); }) *)

(** A job of the microtask queue: the reaction of a link to the promise
    before it, with the links still chained behind it, or the reaction a
    caller attached to [onExit()]. *)
Inductive job : Type :=
| Reaction (l : link) (rest : list link) (o : outcome value)
| Observer (o : outcome value).

(** Where the activation of [doRun] is suspended, with its locals. *)
Inductive pc : Type :=
| Idle
| AwaitBoot (a : args) (config : option Config) (bytes : option SharedBytes)
    (conn : option MessageConnection)
| AwaitInitialize (a : args) (b : boot)
| AwaitSyncConnection (a : args) (b : boot)
| AwaitRunRequest (a : args) (b : boot) (port : Port)
| RunSettled (a : args) (b : boot) (port : Port) (o : outcome Z).

Record world : Type := {
  (* fields of BaseLauncher *)
  exitPromise : promise value;
  terminal : option Terminal;
  state : option LauncherState;
  (* reactions callers attached to exitPromise while it was pending *)
  exitReactions : nat;
  (* the activation of doRun and the promise it returned *)
  frame : pc;
  doRunPromise : promise unit;
  (* the host *)
  microtasks : list job;
  trace : list event;
  (* the transport *)
  channel : option Channel.lifecycle
}.

Definition set_exitPromise (p : promise value) (w : world) : world :=
  {| exitPromise := p; terminal := terminal w; state := state w;
     exitReactions := exitReactions w; frame := frame w;
     doRunPromise := doRunPromise w; microtasks := microtasks w;
     trace := trace w; channel := channel w |}.

Definition set_state (s : option LauncherState) (w : world) : world :=
  {| exitPromise := exitPromise w; terminal := terminal w; state := s;
     exitReactions := exitReactions w; frame := frame w;
     doRunPromise := doRunPromise w; microtasks := microtasks w;
     trace := trace w; channel := channel w |}.

Definition set_exitReactions (n : nat) (w : world) : world :=
  {| exitPromise := exitPromise w; terminal := terminal w; state := state w;
     exitReactions := n; frame := frame w;
     doRunPromise := doRunPromise w; microtasks := microtasks w;
     trace := trace w; channel := channel w |}.

Definition set_frame (f : pc) (w : world) : world :=
  {| exitPromise := exitPromise w; terminal := terminal w; state := state w;
     exitReactions := exitReactions w; frame := f;
     doRunPromise := doRunPromise w; microtasks := microtasks w;
     trace := trace w; channel := channel w |}.

Definition set_doRunPromise (p : promise unit) (w : world) : world :=
  {| exitPromise := exitPromise w; terminal := terminal w; state := state w;
     exitReactions := exitReactions w; frame := frame w;
     doRunPromise := p; microtasks := microtasks w;
     trace := trace w; channel := channel w |}.

Definition set_microtasks (q : list job) (w : world) : world :=
  {| exitPromise := exitPromise w; terminal := terminal w; state := state w;
     exitReactions := exitReactions w; frame := frame w;
     doRunPromise := doRunPromise w; microtasks := q;
     trace := trace w; channel := channel w |}.

Definition set_channel (c : option Channel.lifecycle) (w : world) : world :=
  {| exitPromise := exitPromise w; terminal := terminal w; state := state w;
     exitReactions := exitReactions w; frame := frame w;
     doRunPromise := doRunPromise w; microtasks := microtasks w;
     trace := trace w; channel := c |}.

(** The launcher performs the calls [es], in this order. *)
Definition emit (es : list event) (w : world) : world :=
  {| exitPromise := exitPromise w; terminal := terminal w; state := state w;
     exitReactions := exitReactions w; frame := frame w;
     doRunPromise := doRunPromise w; microtasks := microtasks w;
     trace := trace w ++ es; channel := channel w |}.

(** Jobs are queued behind the ones already waiting. *)
Definition schedule (js : list job) (w : world) : world :=
  set_microtasks (microtasks w ++ js) w.

(** ** The constructor *)

(** [new BaseLauncher()]: the exit promise is pending, [terminal] and
    [state] are not initialised. *)
Definition constructor : world :=
  {| exitPromise := None; terminal := None; state := None;
     exitReactions := 0; frame := Idle; doRunPromise := None;
     microtasks := []; trace := []; channel := None |}.

Definition getState (w : world) : option LauncherState := state w.

(** ** Termination *)

(** Modelled from the spec: [terminateConnection()], which is abstract in
    [BaseLauncher] and implemented outside the sources.  The call is
    recorded with the place it is made from, and it closes the message
    channel, if one has been created (see [Channel.close]). *)
Definition terminateConnection (s : site) (w : world) : world :=
  emit [TerminateConnection s] (set_channel (option_map Channel.close (channel w)) w).

(** [terminate()], lines 171-176. *)
Definition terminate (w : world) : world :=
  let w1 :=
    match terminal w with
    | Some t => emit [SendText t "Execution terminated" true] w
    | None => w
    end in
  terminateConnection ByTerminate w1.

(** ** The exit promise *)

(** The resolving functions of a promise settle it the first time one of
    them is called and do nothing afterwards; settling queues the
    reactions attached so far. *)
Definition settle_exit (o : outcome value) (w : world) : world :=
  match exitPromise w with
  | Some _ => w
  | None =>
      schedule (repeat (Observer o) (exitReactions w))
        (set_exitReactions 0 (set_exitPromise (Some o) w))
  end.

Definition exitResolveCallback (rval : value) (w : world) : world :=
  settle_exit (Fulfilled rval) (emit [ExitResolveCallback rval] w).

Definition exitRejectCallback (r : reason) (w : world) : world :=
  settle_exit (Rejected r) (emit [ExitRejectCallback r] w).

(** A caller does [launcher.onExit().then(...)]. *)
Definition onExit_then (w : world) : world :=
  match exitPromise w with
  | None => set_exitReactions (S (exitReactions w)) w
  | Some o => schedule [Observer o] w
  end.

(** ** The microtask queue *)

(** The reaction of one link to the settlement [o] of the promise before
    it: the effect of its handler, if it has one for [o], and the
    settlement of the promise the link returned. *)
Definition react (l : link) (o : outcome value) (w : world) : world * outcome value :=
  match l, o with
  | Then_exitResolve, Fulfilled rval => (exitResolveCallback rval w, Fulfilled VUndefined)
  | Then_exitResolve, Rejected r => (w, Rejected r)
  | Catch_exitReject, Fulfilled v => (w, Fulfilled v)
  | Catch_exitReject, Rejected r => (exitRejectCallback r w, Fulfilled VUndefined)
  | Finally_terminate, _ => (terminateConnection ByFinally w, o)
  end.

(** A promise with the links [links] chained on it has settled with [o]:
    the reaction of the first link is queued. *)
Definition settled_with (links : list link) (o : outcome value) (w : world) : world :=
  match links with
  | [] => w
  | l :: rest => schedule [Reaction l rest o] w
  end.

Definition run_job (j : job) (w : world) : world :=
  match j with
  | Observer o => emit [ExitObserved o] w
  | Reaction l rest o =>
      let (w1, o1) := react l o w in
      settled_with rest o1 w1
  end.

Fixpoint drain (fuel : nat) (w : world) : world :=
  match fuel with
  | O => w
  | S fuel1 =>
      match microtasks w with
      | [] => w
      | j :: q => drain fuel1 (run_job j (set_microtasks q w))
      end
  end.

Definition cost (j : job) : nat :=
  match j with
  | Reaction _ rest _ => S (List.length rest)
  | Observer _ => 1
  end.

(** An upper bound of the number of jobs that run before the queue is
    empty. *)
Definition budget (w : world) : nat :=
  list_sum (map cost (microtasks w)) + exitReactions w.

(** The host empties the microtask queue before it handles the next
    input. *)
Definition checkpoint (w : world) : world := drain (budget w) w.

(** ** [doRun] *)

(** Line 123 and the three calls of line 124; the activation is then
    suspended on their [Promise.all]. *)
Definition doRun (a : args) (w : world) : world :=
  let w1 :=
    set_state (Some {| mode_of := a_mode a; pty := a_pty a; program := a_program a |}) w in
  emit [GetConfig; SharedWasmBytes; CreateMessageConnection]
    (set_frame (AwaitBoot a None None None) w1).

Definition run (program : string) (pty : ServicePseudoTerminal) : world -> world :=
  doRun {| a_mode := Run; a_pty := pty; a_program := Some program;
           a_debugPorts := None; a_terminator := None |}.

Definition debug (program : string) (pty : ServicePseudoTerminal)
    (debugPorts : DebugCharacterDeviceDriver) (terminator : string) : world -> world :=
  doRun {| a_mode := Debug; a_pty := pty; a_program := Some program;
           a_debugPorts := Some debugPorts; a_terminator := Some terminator |}.

Definition startRepl (pty : ServicePseudoTerminal) : world -> world :=
  doRun {| a_mode := Repl; a_pty := pty; a_program := None;
           a_debugPorts := None; a_terminator := None |}.

(** The promise an [await] of [doRun] waits for has rejected: there is no
    [try] in [doRun], so the promise [doRun] returned rejects with the same
    reason and the activation is abandoned where it was suspended. *)
Definition throw (r : reason) (w : world) : world :=
  set_doRunPromise (Some (Rejected r)) w.

(** Lines 126-135, up to the [await] of the [initialize] request. *)
Definition after_boot (a : args) (b : boot) (w : world) : world :=
  let c := messageConnection b in
  let w1 := set_channel (option_map Channel.listen (channel w)) (set_frame (AwaitInitialize a b) w) in
  emit [Listen c;
        OnNotification c "pathMappings";
        SendRequest c
          (initialize (Uri_toString (repository (b_config b)) true) (root (b_config b))
             (sharedWasmBytes b)) []] w1.

(** [Promise.all] fulfils once its three promises have. *)
Definition join (a : args) (config : option Config) (bytes : option SharedBytes)
    (conn : option MessageConnection) (w : world) : world :=
  match config, bytes, conn with
  | Some cfg, Some bs, Some c =>
      after_boot a {| b_config := cfg; sharedWasmBytes := bs; messageConnection := c |} w
  | _, _, _ => set_frame (AwaitBoot a config bytes conn) w
  end.

(** Line 137, up to the [await]. *)
Definition after_initialize (a : args) (b : boot) (w : world) : world :=
  emit [CreateSyncConnection (messageConnection b)] (set_frame (AwaitSyncConnection a b) w).

(** The request of lines 150-154. *)
Definition run_request (a : args) (port : Port) : request :=
  match a_mode a with
  | Run => executeFile port (a_program a)
  | Debug => debugFile port (a_program a) (option_map uri (a_debugPorts a)) (a_terminator a)
  | Repl => runRepl port
  end.

(** Lines 144-147. *)
Definition register_drivers (a : args) : list event :=
  RegisterCharacterDeviceDriver (PtyDevice (a_pty a)) true ::
  match a_mode a with
  | Debug => [RegisterCharacterDeviceDriver (DebugDevice (a_debugPorts a)) false]
  | _ => []
  end.

(** Lines 138-159: the I/O wiring, the run request and the registration of
    its reaction chain; [doRun] then returns. *)
Definition after_syncConnection (a : args) (b : boot) (port : Port) (w : world) : world :=
  let w1 := set_doRunPromise (Some (Fulfilled tt)) (set_frame (AwaitRunRequest a b port) w) in
  emit (NewApiService "Python WASM Execution" :: register_drivers a ++
        [SignalReady; SendRequest (messageConnection b) (run_request a port) [port]]) w1.

(** [runRequest.then(...).catch(...).finally(...)], lines 156-159. *)
Definition chain : list link := [Then_exitResolve; Catch_exitReject; Finally_terminate].

(** The run request has settled. *)
Definition runRequest_settled (a : args) (b : boot) (port : Port) (o : outcome Z)
    (w : world) : world :=
  settled_with chain (outcome_map VNumber o) (set_frame (RunSettled a b port o) w).

(** The handler of the [pathMappings] notification, lines 127-129. *)
Definition on_pathMappings (m : PathMapping) (w : world) : world :=
  emit [FirePathMapping m] w.

(** ** Inputs and the transition function *)

Inductive input : Type :=
| CallRun (program : string) (pty : ServicePseudoTerminal)
| CallDebug (program : string) (pty : ServicePseudoTerminal)
    (debugPorts : DebugCharacterDeviceDriver) (terminator : string)
| CallStartRepl (pty : ServicePseudoTerminal)
| CallTerminate
| CallOnExitThen
| GetConfigSettled (o : outcome Config)
| SharedWasmBytesSettled (o : outcome SharedBytes)
| CreateMessageConnectionSettled (o : outcome MessageConnection)
| InitializeSettled (o : outcome unit)
| CreateSyncConnectionSettled (o : outcome Port)
| RunRequestSettled (o : outcome Z)
| PathMappingsNotified (m : PathMapping).

(** [doRun] is still suspended on one of its [await]s. *)
Definition suspended (w : world) : bool :=
  match doRunPromise w with
  | None => true
  | Some _ => false
  end.

(** The launcher handles one input.  The settlement of a promise nobody
    waits for, or that has settled already, cannot occur and leaves [w] as
    it is.  The embedding follows one activation of [doRun]: a call of
    [run], [debug] or [startRepl] on a launcher that has been called
    before, which in the code starts a second activation beside the first,
    is not followed, and what depends on it is stated for the histories
    with one call. *)
Definition handle (i : input) (w : world) : world :=
  match i, frame w with
  | CallRun program pty, Idle => run program pty w
  | CallDebug program pty debugPorts terminator, Idle => debug program pty debugPorts terminator w
  | CallStartRepl pty, Idle => startRepl pty w
  | CallTerminate, _ => terminate w
  | CallOnExitThen, _ => onExit_then w
  | GetConfigSettled o, AwaitBoot a None bytes conn =>
      if suspended w then
        match o with
        | Fulfilled cfg => join a (Some cfg) bytes conn w
        | Rejected r => throw r w
        end
      else w
  | SharedWasmBytesSettled o, AwaitBoot a config None conn =>
      if suspended w then
        match o with
        | Fulfilled bs => join a config (Some bs) conn w
        | Rejected r => throw r w
        end
      else w
  | CreateMessageConnectionSettled o, AwaitBoot a config bytes None =>
      if suspended w then
        match o with
        | Fulfilled c => join a config bytes (Some c) (set_channel (Some Channel.created) w)
        | Rejected r => throw r w
        end
      else w
  | InitializeSettled o, AwaitInitialize a b =>
      if suspended w then
        match o with
        | Fulfilled _ => after_initialize a b w
        | Rejected r => throw r w
        end
      else w
  | CreateSyncConnectionSettled o, AwaitSyncConnection a b =>
      if suspended w then
        match o with
        | Fulfilled port => after_syncConnection a b port w
        | Rejected r => throw r w
        end
      else w
  | RunRequestSettled o, AwaitRunRequest a b port => runRequest_settled a b port o w
  | PathMappingsNotified m, (AwaitInitialize _ _ | AwaitSyncConnection _ _
                            | AwaitRunRequest _ _ _ | RunSettled _ _ _ _) =>
      on_pathMappings m w
  | _, _ => w
  end.

Definition step (w : world) (i : input) : world := checkpoint (handle i w).

(** The launcher after the inputs [ins], starting from [w]. *)
Definition exec (w : world) (ins : list input) : world := fold_left step ins w.

(** One session: a fresh launcher and what happens to it. *)
Definition session (ins : list input) : world := exec constructor ins.

(** ** Observations on a trace *)

Definition is_exit_callback (e : event) : bool :=
  match e with
  | ExitResolveCallback _ | ExitRejectCallback _ => true
  | _ => false
  end.

Definition is_request (e : event) : bool :=
  match e with
  | SendRequest _ _ _ => true
  | _ => false
  end.

Definition is_initialize (e : event) : bool :=
  match e with
  | SendRequest _ (initialize _ _ _) _ => true
  | _ => false
  end.

Definition is_run_request (e : event) : bool :=
  match e with
  | SendRequest _ (executeFile _ _ | debugFile _ _ _ _ | runRepl _) _ => true
  | _ => false
  end.

Definition is_registration (e : event) : bool :=
  match e with
  | RegisterCharacterDeviceDriver _ _ => true
  | _ => false
  end.

Definition is_signalReady (e : event) : bool :=
  match e with
  | SignalReady => true
  | _ => false
  end.

Definition is_sendText (e : event) : bool :=
  match e with
  | SendText _ _ _ => true
  | _ => false
  end.

Definition is_teardown (e : event) : bool :=
  match e with
  | TerminateConnection ByFinally => true
  | _ => false
  end.

Definition count (p : event -> bool) (tr : list event) : nat :=
  List.length (filter p tr).

(** The ports an event hands over to the worker. *)
Definition transferred (e : event) : list Port :=
  match e with
  | SendRequest _ _ transfer => transfer
  | _ => []
  end.

(** ** The protocol of a session *)

(** The exit callback the reaction chain calls for the settlement [o] of
    the run request. *)
Definition exit_event (o : outcome Z) : event :=
  match o with
  | Fulfilled n => ExitResolveCallback (VNumber n)
  | Rejected r => ExitRejectCallback r
  end.

(** The events that answer an input of the owner or of the worker: the
    teardown [terminate()] asks for, the reactions of the callers, the
    path mappings passed on.  The other events are the steps of [doRun]
    and of the reaction chain of its run request. *)
Definition external (e : event) : bool :=
  match e with
  | TerminateConnection ByTerminate
  | ExitObserved _
  | SendText _ _ _
  | FirePathMapping _ => true
  | _ => false
  end.

Definition own (e : event) : bool := negb (external e).

Definition boot_calls : list event :=
  [GetConfig; SharedWasmBytes; CreateMessageConnection].

Definition handshake (b : boot) : list event :=
  [Listen (messageConnection b);
   OnNotification (messageConnection b) "pathMappings";
   SendRequest (messageConnection b)
     (initialize (Uri_toString (repository (b_config b)) true) (root (b_config b))
        (sharedWasmBytes b)) []].

Definition wiring (a : args) (b : boot) (port : Port) : list event :=
  NewApiService "Python WASM Execution" :: register_drivers a ++
  [SignalReady; SendRequest (messageConnection b) (run_request a port) [port]].

(** The steps [doRun] and its reaction chain have made when the
    activation is at [f]. *)
Definition protocol (f : pc) : list event :=
  match f with
  | Idle => []
  | AwaitBoot _ _ _ _ => boot_calls
  | AwaitInitialize _ b => boot_calls ++ handshake b
  | AwaitSyncConnection _ b =>
      boot_calls ++ handshake b ++ [CreateSyncConnection (messageConnection b)]
  | AwaitRunRequest a b port =>
      boot_calls ++ handshake b ++ [CreateSyncConnection (messageConnection b)] ++
      wiring a b port
  | RunSettled a b port o =>
      boot_calls ++ handshake b ++ [CreateSyncConnection (messageConnection b)] ++
      wiring a b port ++ [exit_event o; TerminateConnection ByFinally]
  end.

Definition frame_args (f : pc) : option args :=
  match f with
  | Idle => None
  | AwaitBoot a _ _ _ | AwaitInitialize a _ | AwaitSyncConnection a _
  | AwaitRunRequest a _ _ | RunSettled a _ _ _ => Some a
  end.

Definition state_of (a : args) : LauncherState :=
  {| mode_of := a_mode a; pty := a_pty a; program := a_program a |}.

(** The promise returned by [run], [debug] or [startRepl] has fulfilled:
    the session has started. *)
Definition started (w : world) : bool :=
  match doRunPromise w with
  | Some (Fulfilled _) => true
  | _ => false
  end.

(** The run request has settled and its reaction chain has run. *)
Definition settled (w : world) : bool :=
  match frame w with
  | RunSettled _ _ _ _ => true
  | _ => false
  end.

(** The arguments [run], [debug] and [startRepl] pass to [doRun]. *)
Definition entry_args (a : args) : bool :=
  match a_mode a, a_program a, a_debugPorts a, a_terminator a with
  | Run, Some _, None, None => true
  | Debug, Some _, Some _, Some _ => true
  | Repl, None, None, None => true
  | _, _, _, _ => false
  end.

(** What holds of the launcher between two inputs. *)
Record invariant (w : world) : Prop := {
  inv_terminal : terminal w = None;
  inv_quiet : microtasks w = [];
  inv_trace : filter own (trace w) = protocol (frame w);
  inv_sendText : filter is_sendText (trace w) = [];
  inv_args :
    match frame_args (frame w) with
    | Some a => entry_args a = true
    | None => True
    end;
  inv_state : state w = option_map state_of (frame_args (frame w));
  inv_exit :
    exitPromise w =
    match frame w with
    | RunSettled _ _ _ o => Some (outcome_map VNumber o)
    | _ => None
    end;
  inv_doRun :
    match frame w with
    | Idle => doRunPromise w = None
    | AwaitRunRequest _ _ _ | RunSettled _ _ _ _ => doRunPromise w = Some (Fulfilled tt)
    | _ => started w = false
    end;
  inv_channel :
    match frame w with
    | Idle | AwaitBoot _ _ _ None => channel w = None
    | RunSettled _ _ _ _ => channel w = Some Channel.closed
    | _ => channel w <> None
    end
}.

(** ** Failure of the boot *)

(** The input [i] is the rejection of one of the three promises the
    [Promise.all] of line 124 still waits for. *)
Definition boot_failure (w : world) (i : input) : option reason :=
  if suspended w then
    match i, frame w with
    | GetConfigSettled (Rejected r), AwaitBoot _ None _ _ => Some r
    | SharedWasmBytesSettled (Rejected r), AwaitBoot _ _ None _ => Some r
    | CreateMessageConnectionSettled (Rejected r), AwaitBoot _ _ _ None => Some r
    | _, _ => None
    end
  else None.

(** [doRun] has not got past the [Promise.all]. *)
Definition booting (w : world) : bool :=
  match frame w with
  | AwaitBoot _ _ _ _ => true
  | _ => false
  end.

(** ** What the session has been given *)

(** [initialize] with the results of the boot. *)
Definition initialize_request (b : boot) : event :=
  SendRequest (messageConnection b)
    (initialize (Uri_toString (repository (b_config b)) true) (root (b_config b))
       (sharedWasmBytes b)) [].

(** The results of the boot in [b] were delivered by the inputs [ins]. *)
Definition boot_fetched (ins : list input) (b : boot) : Prop :=
  In (GetConfigSettled (Fulfilled (b_config b))) ins /\
  In (SharedWasmBytesSettled (Fulfilled (sharedWasmBytes b))) ins /\
  In (CreateMessageConnectionSettled (Fulfilled (messageConnection b))) ins.

(** The results of the boot the activation holds at [f] were delivered by
    the inputs [ins]. *)
Definition fetched (ins : list input) (f : pc) : Prop :=
  match f with
  | Idle => True
  | AwaitBoot _ config bytes conn =>
      (forall x, config = Some x -> In (GetConfigSettled (Fulfilled x)) ins) /\
      (forall x, bytes = Some x -> In (SharedWasmBytesSettled (Fulfilled x)) ins) /\
      (forall x, conn = Some x -> In (CreateMessageConnectionSettled (Fulfilled x)) ins)
  | AwaitInitialize _ b | AwaitSyncConnection _ b
  | AwaitRunRequest _ b _ | RunSettled _ b _ _ => boot_fetched ins b
  end.

End Launcher.

(** * The extension entry point *)

Module Extension.
Import MonadNotation.
Local Open Scope monad_scope.

Definition Uri := string.
Definition error := reason.

Record DebugConfiguration : Type := {
  type : option string;
  request : option string;
  name : option string;
  program : option string;
  stopOnEntry : option bool
}.

(** What the host does for the extension, in the order it is asked. *)
Inductive effect : Type :=
| GetExtension (id : string)
| Activate (id : string)
| LoadWorkspaceContents (workspaceUri : Uri)
| ReadFile (u : Uri)
| ConsoleLog (e : error)
| showInformationMessage (message : string)
| startDebugging (config : DebugConfiguration) (noDebug : bool).

(** How the body of a function ends: it runs to its end, an exception
    leaves it (a [throw], or the rejection of a promise it awaits), or it
    stays suspended on a promise that never settles. *)
Inductive completion (A : Type) : Type :=
| Normal (a : A)
| Thrown (e : error)
| Suspended.
Arguments Normal {A} a.
Arguments Thrown {A} e.
Arguments Suspended {A}.

(** A computation: what it asked of the host, and how it ended. *)
Definition M (A : Type) : Type := list effect * completion A.

Definition M_ret {A : Type} (a : A) : M A := ([], Normal a).

Definition M_bind {A B : Type} (m : M A) (k : A -> M B) : M B :=
  match m with
  | (log, Normal a) => let (log', c) := k a in (log ++ log', c)
  | (log, Thrown e) => (log, Thrown e)
  | (log, Suspended) => (log, Suspended)
  end.

#[global] Instance Monad_M : Monad M := {| ret := @M_ret; bind := @M_bind |}.

(** A call of a host function: the call is recorded, and it returns or
    throws. *)
Definition call {A : Type} (e : effect) (c : completion A) : M A := ([e], c).

(** The evaluation of an expression that returns or throws. *)
Definition eval {A : Type} (c : completion A) : M A := ([], c).

(** [await p], where [p] is what becomes of the promise; [None] is a
    promise that never settles. *)
Definition await {A : Type} (p : promise A) : M A :=
  match p with
  | Some (Fulfilled a) => ([], Normal a)
  | Some (Rejected e) => ([], Thrown e)
  | None => ([], Suspended)
  end.

(** [try { body } catch (error) { handler }] *)
Definition try_catch {A : Type} (body : M A) (handler : error -> M A) : M A :=
  match body with
  | (log, Thrown e) => let (log', c) := handler e in (log ++ log', c)
  | _ => body
  end.

(** The promise an [async] function returns. *)
Definition async {A : Type} (m : M A) : promise A :=
  match snd m with
  | Normal a => Some (Fulfilled a)
  | Thrown e => Some (Rejected e)
  | Suspended => None
  end.

Definition console_log (e : error) : M unit := call (ConsoleLog e) (Normal tt).

(** The API of the RemoteHub extension; [loadWorkspaceContents] is
    optional. *)
Record RemoteHubApiStub : Type := {
  loadWorkspaceContents : option (Uri -> completion (promise bool))
}.

Record Extension : Type := {
  id : string;
  activate : completion (promise RemoteHubApiStub)
}.

(** The host: every call may throw, every promise may reject or never
    settle. *)
Record Host : Type := {
  getExtension : string -> completion (option Extension);
  Uri_parse : string -> completion Uri;
  Uri_joinPath : Uri -> string -> completion Uri;
  readFile : Uri -> completion (promise (list nat))
}.

(** [getRemoteHubExtension], lines 127-135: the first of the three
    extensions that is installed. *)
Definition getRemoteHubExtension (h : Host) : M (option Extension) :=
  first <- call (GetExtension "ms-vscode.remote-repositories")
             (getExtension h "ms-vscode.remote-repositories") ;;
  match first with
  | Some e => ret (Some e)
  | None =>
      second <- call (GetExtension "GitHub.remoteHub") (getExtension h "GitHub.remoteHub") ;;
      match second with
      | Some e => ret (Some e)
      | None =>
          call (GetExtension "GitHub.remoteHub-insiders")
            (getExtension h "GitHub.remoteHub-insiders")
      end
  end.

(** The body of the [try] of [preloadPython], lines 113-121. *)
Definition preload_body (h : Host) : M unit :=
  remoteHub <- getRemoteHubExtension h ;;
  match remoteHub with
  | Some ext =>
      activation <- call (Activate (id ext)) (activate ext) ;;
      remoteHubApi <- await activation ;;
      match loadWorkspaceContents remoteHubApi with
      | Some load =>
          uri <- eval (Uri_parse h "vscode-vfs://github/dbaeumer/python-3.11.0rc") ;;
          loading <- call (LoadWorkspaceContents uri) (load uri) ;;
          _ <- await loading ;;
          file <- eval (Uri_joinPath h uri "python.wasm") ;;
          _ <- call (ReadFile file) (readFile h file) ;;
          ret tt
      | None => ret tt
      end
  | None => ret tt
  end.

(** [preloadPython], lines 111-125. *)
Definition preloadPython (h : Host) : M unit :=
  try_catch (preload_body h) console_log.

(** ** The code that awaits the preload *)

(** [!s] for an optional string: [undefined] and the empty string. *)
Definition falsy (s : option string) : bool :=
  match s with
  | None => true
  | Some s' => String.eqb s' ""
  end.

(** [resolveDebugConfiguration], lines 22-41.  [languageId] is the
    language of the active editor, if there is one, and [dismissed] what
    becomes of the promise of [showInformationMessage]. *)
Definition resolveDebugConfiguration (preloadPromise : promise unit)
    (languageId : option string) (dismissed : promise unit)
    (config : DebugConfiguration) : M (option DebugConfiguration) :=
  _ <- await preloadPromise ;;
  let config :=
    if falsy (type config) && falsy (request config) && falsy (name config) then
      match languageId with
      | Some l =>
          if String.eqb l "python" then
            {| type := Some "python-web-wasm"; request := Some "launch";
               name := Some "Launch"; program := Some "${file}";
               stopOnEntry := Some false |}
          else config
      | None => config
      end
    else config in
  if falsy (program config) then
    shown <- call (showInformationMessage "Cannot find a Python file to debug")
               (Normal dismissed) ;;
    _ <- await shown ;;
    ret None
  else ret (Some config).

(** [createDebugAdapterDescriptor], lines 47-50; the descriptor is
    identified by the session it serves. *)
Definition createDebugAdapterDescriptor (preloadPromise : promise unit)
    (session : nat) : M nat :=
  _ <- await preloadPromise ;;
  ret session.

(** A [Uri] object as the commands get it, with its [fsPath]. *)
Record Resource : Type := {
  resourceUri : Uri;
  fsPath : string
}.

(** The command [runEditorContents], lines 56-74.  [resource] is the
    argument of the command, [activeDocument] the uri of the document of
    the active editor, [answer] what becomes of the promise of
    [debug.startDebugging]. *)
Definition runEditorContents (preloadPromise : promise unit)
    (resource : option Resource) (activeDocument : option Resource)
    (answer : promise bool) : M bool :=
  let targetResource :=
    match resource with
    | Some r => Some r
    | None => activeDocument
    end in
  match targetResource with
  | Some target =>
      _ <- await preloadPromise ;;
      debugging <-
        call (startDebugging
                {| type := Some "python-web-wasm"; request := Some "launch";
                   name := Some "Run Python in WASM"; program := Some (fsPath target);
                   stopOnEntry := None |} true) (Normal answer) ;;
      await debugging
  | None => ret false
  end.

(** The command [debugEditorContents], lines 75-91. *)
Definition debugEditorContents (preloadPromise : promise unit)
    (resource : option Resource) (activeDocument : option Resource)
    (answer : promise bool) : M bool :=
  let targetResource :=
    match resource with
    | Some r => Some r
    | None => activeDocument
    end in
  match targetResource with
  | Some target =>
      _ <- await preloadPromise ;;
      debugging <-
        call (startDebugging
                {| type := Some "python-web-wasm"; request := Some "launch";
                   name := Some "Debug Python in WASM"; program := Some (fsPath target);
                   stopOnEntry := Some true |} false) (Normal answer) ;;
      await debugging
  | None => ret false
  end.

(** [activate] calls [preloadPython()] once and hands its promise to the
    commands, the provider and the factory (line 54). *)
Definition preloadPromise (h : Host) : promise unit := async (preloadPython h).

(** The preload has failed: an exception left the body of its [try]. *)
Definition preload_failure (h : Host) : option error :=
  match snd (preload_body h) with
  | Thrown e => Some e
  | _ => None
  end.

End Extension.

(** * Sample sessions and hosts *)

Module Samples.
Import Launcher.

Definition config0 : Config :=
  {| repository := "vscode-vfs://github/dbaeumer/python-3.11.0rc"; root := "/python" |}.

Definition wasm0 : SharedBytes := [0; 97; 115; 109].

Definition debugPorts0 : DebugCharacterDeviceDriver :=
  {| driver := 4; uri := "debug:4" |}.

(** The boot succeeds: connection 1, port 7. *)
Definition booted : list input :=
  [GetConfigSettled (Fulfilled config0);
   SharedWasmBytesSettled (Fulfilled wasm0);
   CreateMessageConnectionSettled (Fulfilled 1);
   InitializeSettled (Fulfilled tt);
   CreateSyncConnectionSettled (Fulfilled 7)].

Definition run_app : list input := CallRun "app.py" 3 :: booted.

Definition debug_app : list input := CallDebug "app.py" 3 debugPorts0 "(Pdb)" :: booted.

Definition repl : list input := CallStartRepl 3 :: booted.

(** A run whose owner waits on [onExit()] and whose worker exits with 0. *)
Definition run_app_exits : list input :=
  run_app ++ [CallOnExitThen; RunRequestSettled (Fulfilled 0%Z)].


(** The shared binary cannot be fetched. *)
Definition debug_app_no_binary : list input :=
  [CallDebug "app.py" 3 debugPorts0 "(Pdb)";
   GetConfigSettled (Fulfilled config0);
   SharedWasmBytesSettled (Rejected "binary unavailable");
   CreateMessageConnectionSettled (Fulfilled 1)].

(** A host with RemoteHub installed, whose activation fails. *)
Definition host_activation_fails : Extension.Host :=
  {| Extension.getExtension := fun id =>
       Extension.Normal
         (if String.eqb id "GitHub.remoteHub" then
            Some {| Extension.id := id;
                    Extension.activate :=
                      Extension.Normal (Some (Rejected "activation failed")) |}
          else None);
     Extension.Uri_parse := fun u => Extension.Normal u;
     Extension.Uri_joinPath := fun u p => Extension.Normal (u ++ "/" ++ p)%string;
     Extension.readFile := fun _ => Extension.Normal None |}.

End Samples.

(** * Further observations *)

Module LauncherExtra.
Import Launcher.

(** The owner calls [run], [debug] or [startRepl]. *)
Definition is_call (i : input) : bool :=
  match i with
  | CallRun _ _ | CallDebug _ _ _ _ | CallStartRepl _ => true
  | _ => false
  end.

(** The arguments the entry point called by [i] passes to [doRun]. *)
Definition call_args (i : input) : option args :=
  match i with
  | CallRun program pty =>
      Some {| a_mode := Run; a_pty := pty; a_program := Some program;
              a_debugPorts := None; a_terminator := None |}
  | CallDebug program pty debugPorts terminator =>
      Some {| a_mode := Debug; a_pty := pty; a_program := Some program;
              a_debugPorts := Some debugPorts; a_terminator := Some terminator |}
  | CallStartRepl pty =>
      Some {| a_mode := Repl; a_pty := pty; a_program := None;
              a_debugPorts := None; a_terminator := None |}
  | _ => None
  end.

(** No input of [ins] starts a session. *)
Definition no_call (ins : list input) : bool :=
  forallb (fun i => negb (is_call i)) ins.

(** The run request the entry point called by [i] leads to. *)
Definition request_of_call (i : input) (port : Port) : option request :=
  match i with
  | CallRun program _ => Some (executeFile port (Some program))
  | CallDebug program _ debugPorts terminator =>
      Some (debugFile port (Some program) (Some (uri debugPorts)) (Some terminator))
  | CallStartRepl _ => Some (runRepl port)
  | _ => None
  end.

Definition is_terminate (i : input) : bool :=
  match i with
  | CallTerminate => true
  | _ => false
  end.

Definition is_onExit_then (i : input) : bool :=
  match i with
  | CallOnExitThen => true
  | _ => false
  end.

Definition is_observed (e : event) : bool :=
  match e with
  | ExitObserved _ => true
  | _ => false
  end.

(** The rejection [i] of the promise [doRun] awaits after the boot: the
    [initialize] request, or [createSyncConnection]. *)
Definition handshake_failure (w : world) (i : input) : option reason :=
  if suspended w then
    match i, frame w with
    | InitializeSettled (Rejected r), AwaitInitialize _ _ => Some r
    | CreateSyncConnectionSettled (Rejected r), AwaitSyncConnection _ _ => Some r
    | _, _ => None
    end
  else None.

(** The handler of [pathMappings] has been registered (line 127). *)
Definition notified (w : world) : bool :=
  match frame w with
  | Idle | AwaitBoot _ _ _ _ => false
  | _ => true
  end.

(** The port of the sync connection the activation holds at [f] was
    delivered by the inputs [ins]. *)
Definition port_delivered (ins : list input) (f : pc) : Prop :=
  match f with
  | AwaitRunRequest _ _ port | RunSettled _ _ port _ =>
      In (CreateSyncConnectionSettled (Fulfilled port)) ins
  | _ => True
  end.

(** The number of reactions the owner attached to [onExit()]. *)
Definition attached (ins : list input) : nat :=
  List.length (filter is_onExit_then ins).

(** The number of calls of [run], [debug] and [startRepl] in [ins]. *)
Definition calls (ins : list input) : nat :=
  List.length (filter is_call ins).

(** The launcher is used for one session: it is called once at most. *)
Definition one_session (ins : list input) : bool :=
  Nat.leb (calls ins) 1.

Definition getConfig_settled (i : input) : option (outcome Config) :=
  match i with
  | GetConfigSettled o => Some o
  | _ => None
  end.

Definition sharedWasmBytes_settled (i : input) : option (outcome SharedBytes) :=
  match i with
  | SharedWasmBytesSettled o => Some o
  | _ => None
  end.

Definition createMessageConnection_settled (i : input) : option (outcome MessageConnection) :=
  match i with
  | CreateMessageConnectionSettled o => Some o
  | _ => None
  end.

(** How the promise picked by [pick] settled in [ins]; a promise settles
    once, so that is its first settlement. *)
Fixpoint first_settled {A : Type} (pick : input -> option (outcome A))
    (ins : list input) : option (outcome A) :=
  match ins with
  | [] => None
  | i :: rest =>
      match pick i with
      | Some o => Some o
      | None => first_settled pick rest
      end
  end.

(** The results of the boot, when its three promises have fulfilled in
    [ins]. *)
Definition boot_results (ins : list input) : option boot :=
  match first_settled getConfig_settled ins,
        first_settled sharedWasmBytes_settled ins,
        first_settled createMessageConnection_settled ins with
  | Some (Fulfilled cfg), Some (Fulfilled bs), Some (Fulfilled conn) =>
      Some {| b_config := cfg; sharedWasmBytes := bs; messageConnection := conn |}
  | _, _, _ => None
  end.

(** Where the activation is, by how the promises of the boot settled. *)
Definition boot_progress (rest : list input) (w : world) : Prop :=
  match frame w with
  | Idle => False
  | AwaitBoot _ cfg bs conn =>
      if suspended w then
        first_settled getConfig_settled rest = option_map Fulfilled cfg /\
        first_settled sharedWasmBytes_settled rest = option_map Fulfilled bs /\
        first_settled createMessageConnection_settled rest = option_map Fulfilled conn /\
        (cfg = None \/ bs = None \/ conn = None)
      else
        (exists r, first_settled getConfig_settled rest = Some (Rejected r)) \/
        (exists r, first_settled sharedWasmBytes_settled rest = Some (Rejected r)) \/
        (exists r, first_settled createMessageConnection_settled rest = Some (Rejected r))
  | AwaitInitialize _ b | AwaitSyncConnection _ b
  | AwaitRunRequest _ b _ | RunSettled _ b _ _ =>
      first_settled getConfig_settled rest = Some (Fulfilled (b_config b)) /\
      first_settled sharedWasmBytes_settled rest = Some (Fulfilled (sharedWasmBytes b)) /\
      first_settled createMessageConnection_settled rest =
        Some (Fulfilled (messageConnection b))
  end.


End LauncherExtra.

Module ExtensionExtra.
Import Extension.

(** The configuration [resolveDebugConfiguration] writes into an empty
    one when a Python file is in the active editor (lines 27-31). *)
Definition launch_file : DebugConfiguration :=
  {| type := Some "python-web-wasm"; request := Some "launch"; name := Some "Launch";
     program := Some "${file}"; stopOnEntry := Some false |}.

(** [config] has none of [type], [request] and [name]. *)
Definition unspecified (config : DebugConfiguration) : bool :=
  falsy (type config) && falsy (request config) && falsy (name config).

(** The three extensions [getRemoteHubExtension] looks for, in its order. *)
Definition remoteHubIds : list string :=
  ["ms-vscode.remote-repositories"; "GitHub.remoteHub"; "GitHub.remoteHub-insiders"].

(** The host [h], where the promise a call of [readFile] returns becomes
    [fate] instead. *)
Definition with_readFile_fate (fate : Uri -> promise (list nat)) (h : Host) : Host :=
  {| getExtension := getExtension h;
     Uri_parse := Uri_parse h;
     Uri_joinPath := Uri_joinPath h;
     readFile := fun u =>
       match readFile h u with
       | Normal _ => Normal (fate u)
       | Thrown e => Thrown e
       | Suspended => Suspended
       end |}.

(** The resource a command works on: its argument, or else the document of
    the active editor (lines 57-60 and 76-79). *)
Definition targetResource (resource activeDocument : option Resource) : option Resource :=
  match resource with
  | Some r => Some r
  | None => activeDocument
  end.

End ExtensionExtra.

(** * More sample sessions and hosts *)

Module MoreSamples.
Import Launcher.

(** The image cannot be fetched; the other two promises fulfil. *)
Definition image_missing : list input :=
  [SharedWasmBytesSettled (Fulfilled Samples.wasm0);
   GetConfigSettled (Rejected "image unavailable");
   CreateMessageConnectionSettled (Fulfilled 1);
   CallTerminate].

(** A run that has sent [initialize]. *)
Definition run_app_initializing : list input :=
  [CallRun "app.py" 3;
   GetConfigSettled (Fulfilled Samples.config0);
   SharedWasmBytesSettled (Fulfilled Samples.wasm0);
   CreateMessageConnectionSettled (Fulfilled 1)].

Definition mappings : list PathMapping :=
  [[("/workspace", "file:///home/user/project")];
   [];
   [("/usr/local/lib/python3.11", "vscode-vfs://github/dbaeumer/python-3.11.0rc/lib")]].

(** A configuration with a program and nothing else. *)
Definition program_only : Extension.DebugConfiguration :=
  {| Extension.type := None; Extension.request := None; Extension.name := None;
     Extension.program := Some "main.py"; Extension.stopOnEntry := None |}.

(** A host without any RemoteHub extension. *)
Definition host_without_remoteHub : Extension.Host :=
  {| Extension.getExtension := fun _ => Extension.Normal None;
     Extension.Uri_parse := fun u => Extension.Normal u;
     Extension.Uri_joinPath := fun u p => Extension.Normal (u ++ "/" ++ p)%string;
     Extension.readFile := fun _ => Extension.Normal None |}.

(** A host where the insiders build of RemoteHub is installed and loads
    the repository; the file it is asked to read cannot be read. *)
Definition host_loads : Extension.Host :=
  {| Extension.getExtension := fun id =>
       Extension.Normal
         (if String.eqb id "GitHub.remoteHub-insiders" then
            Some {| Extension.id := id;
                    Extension.activate :=
                      Extension.Normal
                        (Some (Fulfilled
                           {| Extension.loadWorkspaceContents :=
                                Some (fun _ => Extension.Normal (Some (Fulfilled true))) |})) |}
          else None);
     Extension.Uri_parse := fun u => Extension.Normal u;
     Extension.Uri_joinPath := fun u p => Extension.Normal (u ++ "/" ++ p)%string;
     Extension.readFile := fun _ => Extension.Normal (Some (Rejected "not found")) |}.

Definition call_run : input := CallRun "app.py" 3.



(** What these calls pass to [doRun]. *)
Definition run_args : args :=
  {| a_mode := Run; a_pty := 3; a_program := Some "app.py";
     a_debugPorts := None; a_terminator := None |}.



(** A REPL whose image has been fetched, and a worker that cannot be
    created. *)
Definition repl_booting : list input :=
  [CallStartRepl 3; GetConfigSettled (Fulfilled Samples.config0)].

Definition no_worker : input := CreateMessageConnectionSettled (Rejected "no worker").

Definition after_no_worker : list input :=
  [SharedWasmBytesSettled (Fulfilled Samples.wasm0); CallTerminate].

(** The worker refuses [initialize]. *)
Definition not_ready : input := InitializeSettled (Rejected "worker not ready").

Definition after_not_ready : list input :=
  [CreateSyncConnectionSettled (Fulfilled 7); CallTerminate].

End MoreSamples.


(** * Properties of the session protocol *)

Module LauncherFacts.
Import Launcher.

(** Unfolds the field updates of a world. *)
Ltac unfold_world :=
  repeat progress
    (unfold terminate, terminateConnection, onExit_then, schedule, emit,
       exitResolveCallback, exitRejectCallback, settle_exit, settled_with,
       set_exitPromise, set_state, set_exitReactions, set_frame,
       set_doRunPromise, set_microtasks, set_channel in *;
     simpl in *).

(** ** The microtask queue empties *)

Lemma drain_quiet (n : nat) (w : world) :
  microtasks w = [] -> drain n w = w.
Proof.
  intros Hq. destruct n as [|n]; simpl; [reflexivity|].
  rewrite Hq. reflexivity.
Qed.

Lemma drain_step (n : nat) (w : world) (j : job) (q : list job) :
  microtasks w = j :: q ->
  drain (S n) w = drain n (run_job j (set_microtasks q w)).
Proof. intros Hq. simpl. rewrite Hq. reflexivity. Qed.

Lemma checkpoint_quiet (w : world) :
  microtasks w = [] -> checkpoint w = w.
Proof. intros Hq. unfold checkpoint. now apply drain_quiet. Qed.

(** The reactions of the callers run one after the other, in front of the
    jobs queued behind them. *)
Lemma drain_observers (o : outcome value) (n k : nat) :
  forall (w : world) (q : list job),
    microtasks w = repeat (Observer o) n ++ q ->
    drain (n + k) w = drain k (emit (repeat (ExitObserved o) n) (set_microtasks q w)).
Proof.
  induction n as [|n IH]; intros w q Hq.
  - simpl in *. destruct w as [ep te st er fr dp mt tr ch]. simpl in *. subst mt.
    unfold emit, set_microtasks. simpl. rewrite app_nil_r. reflexivity.
  - simpl in Hq. simpl. rewrite Hq.
    rewrite (IH _ q) by reflexivity.
    f_equal. destruct w as [ep te st er fr dp mt tr ch].
    unfold emit, set_microtasks. simpl. rewrite <- app_assoc. reflexivity.
Qed.

(** What the settlement of the run request does, once the queue is empty
    again: the exit callback, the reactions of the callers that were
    waiting on [onExit()], the teardown. *)
Lemma checkpoint_runRequest_settled (a : args) (b : boot) (port : Port) (o : outcome Z)
    (w : world) :
  microtasks w = [] ->
  exitPromise w = None ->
  checkpoint (runRequest_settled a b port o w) =
  {| exitPromise := Some (outcome_map VNumber o);
     terminal := terminal w;
     state := state w;
     exitReactions := 0;
     frame := RunSettled a b port o;
     doRunPromise := doRunPromise w;
     microtasks := [];
     trace := trace w ++ exit_event o ::
                repeat (ExitObserved (outcome_map VNumber o)) (exitReactions w) ++
                [TerminateConnection ByFinally];
     channel := option_map Channel.close (channel w) |}.
Proof.
  intros Hq He. destruct w as [ep te st er fr dp mt tr ch]. simpl in Hq, He. subst ep mt.
  unfold checkpoint.
  replace (budget _) with (S (er + 2)) by (cbn; lia).
  destruct o as [n|r].
  - rewrite (drain_step _ _ (Reaction Then_exitResolve [Catch_exitReject; Finally_terminate]
                               (Fulfilled (VNumber n))) []) by reflexivity.
    rewrite (drain_observers (Fulfilled (VNumber n)) er 2 _
               [Reaction Catch_exitReject [Finally_terminate] (Fulfilled VUndefined)])
      by reflexivity.
    unfold_world. rewrite <- !app_assoc. reflexivity.
  - rewrite (drain_step _ _ (Reaction Then_exitResolve [Catch_exitReject; Finally_terminate]
                               (Rejected r)) []) by reflexivity.
    replace (er + 2) with (S (er + 1)) by lia.
    rewrite (drain_step _ _ (Reaction Catch_exitReject [Finally_terminate] (Rejected r)) [])
      by reflexivity.
    rewrite (drain_observers (Rejected r) er 1 _
               [Reaction Finally_terminate [] (Fulfilled VUndefined)])
      by reflexivity.
    unfold_world. rewrite <- !app_assoc. reflexivity.
Qed.

Lemma checkpoint_onExit_then (w : world) :
  microtasks w = [] ->
  checkpoint (onExit_then w) =
  match exitPromise w with
  | None => set_exitReactions (S (exitReactions w)) w
  | Some o => emit [ExitObserved o] w
  end.
Proof.
  intros Hq. destruct w as [ep te st er fr dp mt tr ch]. simpl in Hq. subst mt.
  unfold onExit_then. simpl. destruct ep as [o|].
  - unfold checkpoint, budget, schedule. simpl.
    apply drain_quiet. reflexivity.
  - apply checkpoint_quiet. reflexivity.
Qed.

(** ** The invariant *)

Lemma filter_own_observed (o : outcome value) (n : nat) :
  filter own (repeat (ExitObserved o) n) = [].
Proof. induction n as [|n IH]; simpl; [reflexivity | exact IH]. Qed.

Lemma filter_sendText_observed (o : outcome value) (n : nat) :
  filter is_sendText (repeat (ExitObserved o) n) = [].
Proof. induction n as [|n IH]; simpl; [reflexivity | exact IH]. Qed.

Lemma invariant_constructor : invariant constructor.
Proof. split; reflexivity. Qed.

Ltac settle_checkpoint :=
  first [ rewrite checkpoint_runRequest_settled by reflexivity
        | rewrite checkpoint_onExit_then by reflexivity
        | rewrite checkpoint_quiet by reflexivity ].

Ltac close_invariant :=
  split; unfold_world; subst;
  unfold wiring, register_drivers in *;
  repeat match goal with
         | |- context [exit_event ?o] => is_var o; destruct o
         | |- context [a_mode ?a] => is_var a; destruct a as [[] ? ? ? ?]
         | |- context [option_map _ ?ch] => is_var ch; destruct ch
         | H : match ?c with _ => _ end |- _ => is_var c; destruct c
         end;
  simpl in *;
  rewrite ?filter_app, ?filter_own_observed, ?filter_sendText_observed;
  repeat match goal with
         | H : filter _ _ = _ |- _ => rewrite H; clear H
         end;
  repeat progress (rewrite ?filter_app, ?filter_own_observed, ?filter_sendText_observed,
                     ?app_nil_r; simpl);
  try reflexivity; try congruence; try discriminate; auto.

Lemma invariant_step (w : world) (i : input) :
  invariant w -> invariant (step w i).
Proof.
  intros [Ht Hq Htr Hsd Har Hst Hex Hdo Hch]. unfold step.
  destruct w as [ep te st er fr dp mt tr ch]. simpl in *. subst te mt.
  destruct i; destruct fr as [|a cfg bs c|a b|a b|a b port|a b port ro];
    simpl in *; subst;
    unfold run, debug, startRepl, doRun, join, after_boot, after_initialize,
      after_syncConnection, throw, on_pathMappings, suspended; simpl;
    repeat match goal with
           | |- context [match ?x with _ => _ end] =>
               match type of x with
               | option _ => destruct x
               | promise _ => destruct x
               | outcome _ => destruct x
               end; simpl
           end.
  all: try (settle_checkpoint; close_invariant).
Qed.

Lemma invariant_exec (ins : list input) :
  forall w : world, invariant w -> invariant (exec w ins).
Proof.
  induction ins as [|i ins IH]; intros w Hw; simpl; [exact Hw|].
  apply IH. now apply invariant_step.
Qed.

Lemma invariant_session (ins : list input) : invariant (session ins).
Proof. apply invariant_exec, invariant_constructor. Qed.

Lemma session_snoc (ins : list input) (i : input) :
  session (ins ++ [i]) = step (session ins) i.
Proof. unfold session, exec. rewrite fold_left_app. reflexivity. Qed.

Lemma exec_app (w : world) (ins later : list input) :
  exec w (ins ++ later) = exec (exec w ins) later.
Proof. unfold exec. apply fold_left_app. Qed.

(** ** Observations see the protocol only *)

Lemma filter_through_own (p : event -> bool) (tr : list event) :
  (forall e, p e = true -> own e = true) ->
  filter p tr = filter p (filter own tr).
Proof.
  intros Hp. induction tr as [|e tr IH]; simpl; [reflexivity|].
  destruct (own e) eqn:Ho; simpl.
  - destruct (p e); [f_equal|]; exact IH.
  - destruct (p e) eqn:He; [|exact IH].
    apply Hp in He. congruence.
Qed.

Lemma transferred_through_own (tr : list event) :
  List.concat (map transferred tr) = List.concat (map transferred (filter own tr)).
Proof.
  induction tr as [|e tr IH]; simpl; [reflexivity|].
  destruct e; simpl; try (f_equal; exact IH); try exact IH.
  destruct s; simpl; exact IH.
Qed.

Ltac by_cases_on_event :=
  let e := fresh "e" in
  intros e; unfold own; destruct e; simpl; try congruence;
  repeat match goal with
         | x : request |- _ => destruct x
         | x : site |- _ => destruct x
         end;
  simpl; intros; congruence.

Lemma exit_callback_own (e : event) : is_exit_callback e = true -> own e = true.
Proof. revert e. by_cases_on_event. Qed.

Lemma request_own (e : event) : is_request e = true -> own e = true.
Proof. revert e. by_cases_on_event. Qed.

Lemma run_request_own (e : event) : is_run_request e = true -> own e = true.
Proof. revert e. by_cases_on_event. Qed.

Lemma registration_own (e : event) : is_registration e = true -> own e = true.
Proof. revert e. by_cases_on_event. Qed.

Lemma signalReady_own (e : event) : is_signalReady e = true -> own e = true.
Proof. revert e. by_cases_on_event. Qed.

Lemma teardown_own (e : event) : is_teardown e = true -> own e = true.
Proof. revert e. by_cases_on_event. Qed.

(** An observation of the protocol events of a session is an observation
    of the protocol of its frame. *)
Lemma observe_protocol (p : event -> bool) (ins : list input) :
  (forall e, p e = true -> own e = true) ->
  filter p (trace (session ins)) = filter p (protocol (frame (session ins))).
Proof.
  intros Hp. rewrite (filter_through_own p _ Hp).
  now rewrite (inv_trace _ (invariant_session ins)).
Qed.



(** C3, as amended.  When the run request settles, with success or with
    failure, the exit callback is called first, then the reactions of the
    callers that were waiting on [onExit()] run, and [terminateConnection]
    is called last, by the [finally] handler; before that the reaction
    chain has not called it. *)
Theorem teardown_after_exit_callback (ins : list input) (a : args) (b : boot)
    (port : Port) (o : outcome Z) :
  frame (session ins) = AwaitRunRequest a b port ->
  let w := session ins in
  let w' := step w (RunRequestSettled o) in
  trace w' =
    trace w ++ exit_event o ::
      repeat (ExitObserved (outcome_map VNumber o)) (exitReactions w) ++
      [TerminateConnection ByFinally] /\
  exitPromise w = None /\
  exitPromise w' = Some (outcome_map VNumber o) /\
  count is_teardown (trace w) = 0.
Proof.
  intros Hf w w'. subst w w'.
  pose proof (invariant_session ins) as Hinv.
  pose proof (observe_protocol is_teardown ins teardown_own) as Hobs.
  destruct Hinv as [_ Hq _ _ _ _ Hex _ _].
  rewrite Hf in Hex, Hobs.
  unfold step, handle. rewrite Hf.
  rewrite checkpoint_runRequest_settled by assumption.
  simpl. repeat split; try assumption.
  unfold count. rewrite Hobs. simpl. unfold register_drivers.
  destruct (a_mode a); reflexivity.
Qed.

Lemma teardown_after_exit_callback_witness :
  frame (session Samples.run_app) =
    AwaitRunRequest
      {| a_mode := Run; a_pty := 3; a_program := Some "app.py";
         a_debugPorts := None; a_terminator := None |}
      {| b_config := Samples.config0; sharedWasmBytes := Samples.wasm0;
         messageConnection := 1 |} 7 /\
  trace (step (session Samples.run_app) (RunRequestSettled (Rejected "worker crashed"))) =
    trace (session Samples.run_app) ++
    [ExitRejectCallback "worker crashed"; TerminateConnection ByFinally].
Proof.
  split; [reflexivity|].
  exact (proj1 (teardown_after_exit_callback Samples.run_app _ _ _
                  (Rejected "worker crashed") eq_refl)).
Defined.

(** C3 fails as stated: the owner that waits on [onExit()] sees the exit
    code before [terminateConnection] is called. *)
Lemma completion_surfaces_before_teardown :
  trace (session Samples.run_app_exits) =
    [GetConfig; SharedWasmBytes; CreateMessageConnection;
     Listen 1; OnNotification 1 "pathMappings";
     SendRequest 1
       (initialize "vscode-vfs://github/dbaeumer/python-3.11.0rc" "/python" [0; 97; 115; 109])
       [];
     CreateSyncConnection 1;
     NewApiService "Python WASM Execution";
     RegisterCharacterDeviceDriver (PtyDevice 3) true;
     SignalReady;
     SendRequest 1 (executeFile 7 (Some "app.py")) [7];
     ExitResolveCallback (VNumber 0);
     ExitObserved (Fulfilled (VNumber 0));
     TerminateConnection ByFinally].
Proof. reflexivity. Qed.

(** C10.  Whatever happens to a launcher, its [terminal] field is
    undefined: no operation assigns it.  So no text is ever sent to a
    terminal, and [terminate()] does what [terminateConnection()] does and
    nothing else. *)
Theorem terminal_stays_undefined (ins : list input) :
  let w := session ins in
  terminal w = None /\
  count is_sendText (trace w) = 0 /\
  terminate w = terminateConnection ByTerminate w /\
  trace (step w CallTerminate) = trace w ++ [TerminateConnection ByTerminate].
Proof.
  intros w. subst w.
  destruct (invariant_session ins) as [Ht Hq _ Hsd _ _ _ _ _].
  assert (Hh : terminate (session ins) = terminateConnection ByTerminate (session ins))
    by (unfold terminate; rewrite Ht; reflexivity).
  repeat split; try assumption.
  - unfold count. now rewrite Hsd.
  - unfold step.
    replace (handle CallTerminate (session ins)) with (terminate (session ins))
      by (unfold handle; destruct (frame (session ins)); reflexivity).
    rewrite Hh. rewrite checkpoint_quiet by exact Hq. reflexivity.
Qed.

Lemma started_frame (ins : list input) :
  started (session ins) = true ->
  exists a b port,
    (frame (session ins) = AwaitRunRequest a b port \/
     exists o, frame (session ins) = RunSettled a b port o) /\
    entry_args a = true /\
    state (session ins) = Some (state_of a).
Proof.
  intros Hs. destruct (invariant_session ins) as [_ _ _ _ Har Hst _ Hdo _].
  destruct (frame (session ins)) as [|a cfg bs c|a b|a b|a b port|a b port o];
    simpl in *; unfold started in *;
    try (rewrite Hdo in Hs; discriminate); try congruence.
  - exists a, b, port. auto.
  - exists a, b, port. eauto.
Qed.

(** Before the session has started, and in a session whose boot fails,
    no device is registered, [signalReady()] is not called and no run
    request is sent. *)
Lemma nothing_wired_before_start (ins : list input) :
  started (session ins) = false ->
  filter is_registration (trace (session ins)) = [] /\
  filter is_signalReady (trace (session ins)) = [] /\
  filter is_run_request (trace (session ins)) = [] /\
  List.concat (map transferred (trace (session ins))) = [].
Proof.
  intros Hs.
  rewrite (observe_protocol is_registration ins registration_own).
  rewrite (observe_protocol is_signalReady ins signalReady_own).
  rewrite (observe_protocol is_run_request ins run_request_own).
  rewrite transferred_through_own, (inv_trace _ (invariant_session ins)).
  pose proof (inv_doRun _ (invariant_session ins)) as Hdo.
  unfold started in Hs.
  destruct (frame (session ins)); simpl in *;
    try (rewrite Hdo in Hs; discriminate); repeat split; reflexivity.
Qed.



(** The run request sent once the activation has returned. *)
Lemma run_request_of_started (ins : list input) :
  started (session ins) = true ->
  let w := session ins in
  exists a b port,
    frame_args (frame w) = Some a /\
    state w = Some (state_of a) /\
    filter is_run_request (trace w) =
      [SendRequest (messageConnection b)
         match a_mode a with
         | Run => executeFile port (a_program a)
         | Debug =>
             debugFile port (a_program a) (option_map uri (a_debugPorts a))
               (a_terminator a)
         | Repl => runRepl port
         end
         [port]] /\
    List.concat (map transferred (trace w)) = [port].
Proof.
  intros Hs w. subst w.
  destruct (started_frame ins Hs) as (a & b & port & Hf & Ha & Hst).
  pose proof (observe_protocol is_run_request ins run_request_own) as Hobs.
  exists a, b, port. split; [|split; [exact Hst|]].
  - destruct Hf as [Hf|[o Hf]]; rewrite Hf; reflexivity.
  - rewrite Hobs, transferred_through_own.
    rewrite (inv_trace _ (invariant_session ins)).
    destruct Hf as [Hf|[o Hf]]; rewrite Hf; simpl;
      unfold register_drivers, run_request;
      destruct (a_mode a); try destruct o; simpl; split; reflexivity.
Qed.







Lemma step_terminate (w : world) :
  terminal w = None -> microtasks w = [] ->
  step w CallTerminate = terminateConnection ByTerminate w.
Proof.
  intros Ht Hq. unfold step.
  assert (Hh : handle CallTerminate w = terminateConnection ByTerminate w).
  { unfold handle. destruct (frame w); unfold terminate; rewrite Ht; reflexivity. }
  rewrite Hh. apply checkpoint_quiet. exact Hq.
Qed.

(** C8.  [terminate()] never calls an exit callback and leaves the exit
    promise as it is.  The first call closes the channel, if there is one;
    a second call in succession calls [terminateConnection()] again, which
    changes nothing: the launcher is as after the first call.  Once the
    session is settled (the run request has settled and its reaction
    chain has run) the channel is closed already, and [terminate()]
    changes nothing at all. *)
Theorem terminate_idempotent (ins : list input) :
  let w := session ins in
  let w1 := step w CallTerminate in
  let w2 := step w1 CallTerminate in
  exitPromise w1 = exitPromise w /\
  filter is_exit_callback (trace w2) = filter is_exit_callback (trace w) /\
  channel w1 = option_map Channel.close (channel w) /\
  channel w2 = channel w1 /\
  w2 = emit [TerminateConnection ByTerminate] w1 /\
  if settled w then w1 = emit [TerminateConnection ByTerminate] w
  else frame w1 = frame w.
Proof.
  intros w w1 w2. subst w w1 w2.
  pose proof (invariant_session ins) as Hinv.
  pose proof (invariant_step _ CallTerminate Hinv) as Hinv1.
  rewrite (step_terminate (step _ _) (inv_terminal _ Hinv1) (inv_quiet _ Hinv1)).
  rewrite (step_terminate _ (inv_terminal _ Hinv) (inv_quiet _ Hinv)).
  pose proof (inv_channel _ Hinv) as Hch.
  destruct (session ins) as [ep te st er fr dp mt tr ch].
  unfold_world. rewrite !filter_app. simpl. rewrite !app_nil_r.
  repeat split.
  - destruct ch; reflexivity.
  - destruct ch; simpl; rewrite <- app_assoc; reflexivity.
  - unfold settled. simpl. destruct fr; try reflexivity. subst ch. reflexivity.
Qed.

Lemma abandoned_step (w : world) (i : input) (r : reason) :
  invariant w ->
  doRunPromise w = Some (Rejected r) ->
  frame (step w i) = frame w /\ doRunPromise (step w i) = Some (Rejected r).
Proof.
  intros [Ht Hq _ _ _ _ Hex Hdo _] Hr. unfold step.
  destruct w as [ep te st er fr dp mt tr ch]. simpl in *. subst te mt dp.
  destruct fr as [|a cfg bs c|a b|a b|a b port|a b port ro];
    simpl in *; try discriminate; subst ep.
  all: destruct i; simpl; unfold suspended; simpl;
    repeat match goal with
           | |- context [match ?x with _ => _ end] => is_var x; destruct x; simpl
           end;
    try settle_checkpoint; unfold_world; auto.
Qed.

Lemma abandoned_exec (later : list input) :
  forall (w : world) (r : reason),
    invariant w ->
    doRunPromise w = Some (Rejected r) ->
    frame (exec w later) = frame w /\ doRunPromise (exec w later) = Some (Rejected r).
Proof.
  induction later as [|i later IH]; intros w r Hinv Hr; simpl; [auto|].
  destruct (abandoned_step w i r Hinv Hr) as [Hf Hd].
  destruct (IH (step w i) r (invariant_step _ _ Hinv) Hd) as [Hf' Hd'].
  split; [congruence | exact Hd'].
Qed.

Lemma boot_failure_step (w : world) (i : input) (r : reason) :
  microtasks w = [] ->
  boot_failure w i = Some r ->
  booting w = true /\ step w i = throw r w.
Proof.
  intros Hq Hb. unfold boot_failure, booting in *. unfold step, handle.
  destruct (suspended w) eqn:Hs; [|discriminate].
  destruct i; try discriminate;
    destruct (frame w) as [|a cfg bs c| | | |]; try discriminate;
    repeat match goal with
           | H : match ?x with _ => _ end = Some _ |- _ => destruct x; try discriminate
           end;
    injection Hb as ->; (split; [reflexivity|]); now apply checkpoint_quiet.
Qed.

(** The activation is abandoned in its boot when a fetch fails. *)
Lemma boot_failure_abandons (ins : list input) (i : input) (r : reason)
    (later : list input) :
  boot_failure (session ins) i = Some r ->
  let w := session (ins ++ i :: later) in
  doRunPromise w = Some (Rejected r) /\
  booting w = true /\
  filter is_request (trace w) = [] /\
  exitPromise w = None /\
  filter is_exit_callback (trace w) = [].
Proof.
  intros Hb w. subst w.
  pose proof (invariant_session ins) as Hinv.
  destruct (boot_failure_step _ _ _ (inv_quiet _ Hinv) Hb) as [Hboot Hstep].
  pose proof (invariant_session (ins ++ i :: later)) as Hinv'.
  pose proof (observe_protocol is_request (ins ++ i :: later) request_own) as Hreq.
  pose proof (observe_protocol is_exit_callback (ins ++ i :: later) exit_callback_own) as Hcb.
  pose proof (inv_exit _ Hinv') as Hex.
  assert (Hw : session (ins ++ i :: later) = exec (step (session ins) i) later)
    by (unfold session; rewrite exec_app; reflexivity).
  destruct (abandoned_exec later (step (session ins) i) r) as [Hf Hd].
  { now apply invariant_step. }
  { rewrite Hstep. reflexivity. }
  rewrite <- Hw in Hf, Hd. rewrite Hstep in Hf. simpl in Hf.
  unfold booting in *. rewrite Hf in *.
  destruct (frame (session ins)); try discriminate.
  simpl in *. repeat split; assumption.
Qed.


(** C2 fails as stated: the shared binary cannot be fetched, and the
    promise of [onExit()] has not rejected; it is pending, and it is the
    promise returned by [debug] that has rejected. *)
Lemma exit_pending_after_fetch_failure :
  exitPromise (session Samples.debug_app_no_binary) = None /\
  filter is_exit_callback (trace (session Samples.debug_app_no_binary)) = [] /\
  doRunPromise (session Samples.debug_app_no_binary) = Some (Rejected "binary unavailable") /\
  filter is_request (trace (session Samples.debug_app_no_binary)) = [].
Proof. repeat split; reflexivity. Qed.

Lemma frame_run_job (j : job) (w : world) : frame (run_job j w) = frame w.
Proof.
  destruct j as [l rest o|o]; [|reflexivity].
  unfold run_job.
  destruct l, o; simpl; unfold exitResolveCallback, exitRejectCallback, settle_exit;
    simpl; destruct (exitPromise w); destruct rest; reflexivity.
Qed.

Lemma frame_drain (n : nat) : forall w : world, frame (drain n w) = frame w.
Proof.
  induction n as [|n IH]; intros w; simpl; [reflexivity|].
  destruct (microtasks w) as [|j q]; [reflexivity|].
  rewrite IH, frame_run_job. reflexivity.
Qed.

Lemma frame_step (w : world) (i : input) : frame (step w i) = frame (handle i w).
Proof. unfold step, checkpoint. apply frame_drain. Qed.

Lemma fetched_weaken (ins : list input) (i : input) (f : pc) :
  fetched ins f -> fetched (ins ++ [i]) f.
Proof.
  unfold fetched, boot_fetched.
  destruct f; intros H; try exact I;
    repeat match goal with
           | H : _ /\ _ |- _ => destruct H
           end;
    repeat split; intros; apply in_or_app; left; auto.
Qed.

Lemma fetched_session (ins : list input) : fetched ins (frame (session ins)).
Proof.
  induction ins as [|i ins IH] using rev_ind; [exact I|].
  rewrite session_snoc, frame_step.
  apply (fetched_weaken _ i) in IH.
  assert (Hi : In i (ins ++ [i])) by (apply in_or_app; right; now left).
  revert IH Hi. generalize (ins ++ [i]) as l. intros l IH Hi.
  unfold handle.
  destruct (frame (session ins)) as [|a cfg bs c|a b|a b|a b port|a b port o] eqn:Hf;
    destruct i; simpl; try exact IH; try exact I;
    unfold run, debug, startRepl, doRun, terminate, terminateConnection, onExit_then,
      join, after_boot, after_initialize, after_syncConnection, throw,
      runRequest_settled, on_pathMappings; simpl;
    rewrite ?Hf; try exact IH.
  all: try (repeat split; intros; discriminate).
  all: try (destruct (terminal (session ins)); simpl; rewrite Hf; exact IH).
  all: try (destruct (exitPromise (session ins)); simpl; rewrite Hf; exact IH).
  all: simpl in IH; destruct IH as (H1 & H2 & H3).
  all: repeat match goal with
         | |- context [match ?x with _ => _ end] => destruct x eqn:?; simpl
         end;
       rewrite ?Hf; simpl; unfold boot_fetched; simpl;
       repeat split; intros; try discriminate; auto;
       try match goal with
           | H : Some _ = Some _ |- _ => injection H as <-; exact Hi
           end.
Qed.

Lemma requests_of_protocol (f : pc) :
  filter is_request (protocol f) =
  match f with
  | Idle | AwaitBoot _ _ _ _ => []
  | AwaitInitialize _ b | AwaitSyncConnection _ b => [initialize_request b]
  | AwaitRunRequest a b port | RunSettled a b port _ =>
      [initialize_request b;
       SendRequest (messageConnection b) (run_request a port) [port]]
  end.
Proof.
  destruct f as [|a cfg bs c|a b|a b|a b port|a b port o]; simpl;
    unfold register_drivers; try reflexivity.
  - destruct (a_mode a); reflexivity.
  - destruct (a_mode a), o; reflexivity.
Qed.

Lemma run_request_not_initialize (c : MessageConnection) (a : args) (port : Port) :
  filter is_initialize [SendRequest c (run_request a port) [port]] = [].
Proof. unfold run_request. destruct (a_mode a); reflexivity. Qed.


End LauncherFacts.

Module ExtensionFacts.
Import Extension.

(** The handler of [preloadPython] logs and returns. *)
Lemma try_catch_console_log (body : M unit) :
  try_catch body console_log =
  match body with
  | (log, Thrown e) => (log ++ [ConsoleLog e], Normal tt)
  | _ => body
  end.
Proof. destruct body as [log [a|e|]]; reflexivity. Qed.

(** An activation that rejects is a failure of the preload. *)
Example activation_failure_is_logged :
  preload_failure Samples.host_activation_fails = Some "activation failed" /\
  preloadPython Samples.host_activation_fails =
    ([GetExtension "ms-vscode.remote-repositories"; GetExtension "GitHub.remoteHub";
      Activate "GitHub.remoteHub"; ConsoleLog "activation failed"],
     Normal tt).
Proof. split; reflexivity. Qed.

(** C9.  Whatever the host does, the promise of [preloadPython] never
    rejects.  When the preload fails, that is when an exception leaves the
    body of its [try] (a call that throws, an awaited promise that
    rejects), the error is logged with [console.log] after what the body
    did, the promise fulfils, and the code that awaits it
    ([resolveDebugConfiguration], [createDebugAdapterDescriptor], the two
    commands) goes on exactly as after a preload that succeeded. *)
Theorem preload_failure_is_swallowed (h : Host) :
  (forall e, preloadPromise h <> Some (Rejected e)) /\
  match preload_failure h with
  | Some e =>
      preloadPython h = (fst (preload_body h) ++ [ConsoleLog e], Normal tt) /\
      preloadPromise h = Some (Fulfilled tt) /\
      (forall languageId dismissed config,
         resolveDebugConfiguration (preloadPromise h) languageId dismissed config =
         resolveDebugConfiguration (Some (Fulfilled tt)) languageId dismissed config) /\
      (forall session,
         createDebugAdapterDescriptor (preloadPromise h) session = ([], Normal session)) /\
      (forall resource activeDocument answer,
         runEditorContents (preloadPromise h) resource activeDocument answer =
         runEditorContents (Some (Fulfilled tt)) resource activeDocument answer /\
         debugEditorContents (preloadPromise h) resource activeDocument answer =
         debugEditorContents (Some (Fulfilled tt)) resource activeDocument answer)
  | None => preloadPython h = preload_body h
  end.
Proof.
  unfold preloadPromise, preload_failure, preloadPython, async.
  rewrite try_catch_console_log.
  destruct (preload_body h) as [log [[]|e|]]; simpl.
  - split; [discriminate | reflexivity].
  - split; [discriminate|]. repeat split; reflexivity.
  - split; [discriminate | reflexivity].
Qed.

End ExtensionFacts.

(** * Further properties of the launcher *)

Module LauncherExtraFacts.
Import Launcher LauncherFacts LauncherExtra.

Lemma doRunPromise_run_job (j : job) (w : world) :
  doRunPromise (run_job j w) = doRunPromise w.
Proof.
  destruct j as [l rest o|o]; [|reflexivity].
  unfold run_job.
  destruct l, o; simpl; unfold exitResolveCallback, exitRejectCallback, settle_exit;
    simpl; destruct (exitPromise w); destruct rest; reflexivity.
Qed.

Lemma doRunPromise_drain (n : nat) : forall w : world,
  doRunPromise (drain n w) = doRunPromise w.
Proof.
  induction n as [|n IH]; intros w; simpl; [reflexivity|].
  destruct (microtasks w) as [|j q]; [reflexivity|].
  rewrite IH, doRunPromise_run_job. reflexivity.
Qed.

Lemma doRunPromise_step (w : world) (i : input) :
  doRunPromise (step w i) = doRunPromise (handle i w).
Proof. unfold step, checkpoint. apply doRunPromise_drain. Qed.

(** Where [doRun] is and what has become of its promise after an input
    depend on nothing else than where it was and what its promise was. *)
Lemma control_handle (w w' : world) (i : input) :
  frame w = frame w' -> doRunPromise w = doRunPromise w' ->
  frame (handle i w) = frame (handle i w') /\
  doRunPromise (handle i w) = doRunPromise (handle i w').
Proof.
  intros Hf Hd.
  destruct w as [ep te st er fr dp mt tr ch], w' as [ep' te' st' er' fr' dp' mt' tr' ch'].
  simpl in Hf, Hd. subst fr' dp'.
  destruct i; destruct fr as [|a cfg bs c|a b|a b|a b port|a b port ro]; simpl;
    unfold run, debug, startRepl, doRun, join, after_boot, after_initialize,
      after_syncConnection, throw, on_pathMappings, suspended, runRequest_settled,
      terminate, onExit_then; simpl;
    repeat match goal with
           | |- context [match ?x with _ => _ end] => is_var x; destruct x; simpl
           end;
    split; reflexivity.
Qed.

Lemma control_step (w w' : world) (i : input) :
  frame w = frame w' -> doRunPromise w = doRunPromise w' ->
  frame (step w i) = frame (step w' i) /\
  doRunPromise (step w i) = doRunPromise (step w' i).
Proof.
  intros Hf Hd. rewrite !frame_step, !doRunPromise_step.
  now apply control_handle.
Qed.

Lemma control_terminate (w : world) :
  frame (step w CallTerminate) = frame w /\
  doRunPromise (step w CallTerminate) = doRunPromise w.
Proof.
  rewrite frame_step, doRunPromise_step.
  destruct w as [ep te st er fr dp mt tr ch].
  unfold handle. simpl. destruct fr, te; split; reflexivity.
Qed.

Lemma control_without_terminate (ins : list input) :
  forall w w' : world,
    frame w = frame w' -> doRunPromise w = doRunPromise w' ->
    frame (exec w ins) = frame (exec w' (filter (fun i => negb (is_terminate i)) ins)) /\
    doRunPromise (exec w ins) =
      doRunPromise (exec w' (filter (fun i => negb (is_terminate i)) ins)).
Proof.
  induction ins as [|i ins IH]; intros w w' Hf Hd; simpl; [auto|].
  destruct (is_terminate i) eqn:Hi; simpl.
  - destruct i; try discriminate.
    destruct (control_terminate w) as [Hf1 Hd1].
    apply IH; congruence.
  - destruct (control_step w w' i Hf Hd) as [Hf1 Hd1].
    apply IH; assumption.
Qed.

(** [terminate()] cancels nothing in the launcher: it sets no flag that
    [doRun] reads.  With the same settlements of the promises it awaits, a
    session is at the same point, with the same state, the same promises
    and the same calls of [doRun] and of its reaction chain, as the
    session without its calls of [terminate()]. *)
Theorem terminate_does_not_cancel (ins : list input) :
  let w := session ins in
  let w' := session (filter (fun i => negb (is_terminate i)) ins) in
  frame w = frame w' /\
  doRunPromise w = doRunPromise w' /\
  exitPromise w = exitPromise w' /\
  getState w = getState w' /\
  filter own (trace w) = filter own (trace w').
Proof.
  intros w w'. subst w w'.
  destruct (control_without_terminate ins constructor constructor eq_refl eq_refl)
    as [Hf Hd].
  fold (session ins) in Hf, Hd.
  fold (session (filter (fun i => negb (is_terminate i)) ins)) in Hf, Hd.
  pose proof (invariant_session ins) as I1.
  pose proof (invariant_session (filter (fun i => negb (is_terminate i)) ins)) as I2.
  repeat split; try assumption.
  - rewrite (inv_exit _ I1), (inv_exit _ I2), Hf. reflexivity.
  - unfold getState. rewrite (inv_state _ I1), (inv_state _ I2), Hf. reflexivity.
  - rewrite (inv_trace _ I1), (inv_trace _ I2), Hf. reflexivity.
Qed.


(** ** The state of the launcher *)

Lemma idle_without_call (ins : list input) :
  no_call ins = true -> frame (session ins) = Idle.
Proof.
  induction ins as [|i ins IH] using rev_ind; intros Hn; [reflexivity|].
  unfold no_call in *. rewrite forallb_app in Hn. simpl in Hn.
  apply andb_true_iff in Hn. destruct Hn as [Hn Hi]. rewrite andb_true_r in Hi.
  rewrite session_snoc, frame_step. specialize (IH Hn).
  unfold handle. rewrite IH.
  destruct i; try discriminate; try reflexivity; try exact IH.
  - unfold terminate, terminateConnection. destruct (terminal (session ins)); simpl; exact IH.
  - unfold onExit_then. destruct (exitPromise (session ins)); simpl; exact IH.
Qed.

Lemma frame_args_handle (w : world) (i : input) (a : args) :
  frame_args (frame w) = Some a -> frame_args (frame (handle i w)) = Some a.
Proof.
  intros Ha. destruct w as [ep te st er fr dp mt tr ch]. simpl in Ha.
  destruct i; destruct fr as [|a0 cfg bs c|a0 b|a0 b|a0 b port|a0 b port ro];
    simpl in *; try discriminate;
    unfold join, after_boot, after_initialize, after_syncConnection, throw,
      on_pathMappings, suspended, runRequest_settled, terminate, onExit_then; simpl;
    repeat match goal with
           | |- context [match ?x with _ => _ end] => is_var x; destruct x; simpl
           end;
    exact Ha.
Qed.

Lemma frame_args_exec (ins : list input) (a : args) :
  forall w : world,
    frame_args (frame w) = Some a -> frame_args (frame (exec w ins)) = Some a.
Proof.
  induction ins as [|i ins IH]; intros w Ha; simpl; [exact Ha|].
  apply IH. rewrite frame_step. now apply frame_args_handle.
Qed.

Lemma frame_args_of_call (pre rest : list input) (c : input) (a : args) :
  no_call pre = true -> call_args c = Some a ->
  frame_args (frame (session (pre ++ c :: rest))) = Some a.
Proof.
  intros Hpre Hc. unfold session. rewrite exec_app. simpl.
  apply frame_args_exec. fold (session pre).
  rewrite frame_step. unfold handle. rewrite (idle_without_call pre Hpre).
  destruct c; try discriminate; simpl in Hc; injection Hc as <-; reflexivity.
Qed.

(** [getState()] is undefined until [run], [debug] or [startRepl] is
    called.  From the call on, before any promise of the boot has settled,
    it is the mode, the pty and the program of that call ([undefined] for
    the program of a REPL), and it stays so whatever happens to the
    session, also when the boot fails. *)
Theorem state_is_set_by_the_call (pre rest : list input) (c : input) (a : args) :
  no_call pre = true ->
  no_call rest = true ->
  call_args c = Some a ->
  getState (session pre) = None /\
  getState (session (pre ++ [c])) =
    Some {| mode_of := a_mode a; pty := a_pty a; program := a_program a |} /\
  getState (session (pre ++ c :: rest)) =
    Some {| mode_of := a_mode a; pty := a_pty a; program := a_program a |}.
Proof.
  intros Hpre _ Hc. unfold getState.
  rewrite !(inv_state _ (invariant_session _)).
  rewrite (idle_without_call pre Hpre).
  rewrite (frame_args_of_call pre [] c a Hpre Hc).
  rewrite (frame_args_of_call pre rest c a Hpre Hc).
  repeat split; reflexivity.
Qed.

Lemma state_is_set_by_the_call_witness :
  no_call [CallOnExitThen; CallTerminate] = true /\
  no_call MoreSamples.image_missing = true /\
  call_args (CallStartRepl 3) =
    Some {| a_mode := Repl; a_pty := 3; a_program := None;
            a_debugPorts := None; a_terminator := None |} /\
  getState (session [CallOnExitThen; CallTerminate]) = None /\
  getState (session ([CallOnExitThen; CallTerminate] ++ [CallStartRepl 3])) =
    Some {| mode_of := Repl; pty := 3; program := None |} /\
  getState (session ([CallOnExitThen; CallTerminate] ++
                     CallStartRepl 3 :: MoreSamples.image_missing)) =
    Some {| mode_of := Repl; pty := 3; program := None |}.
Proof.
  split; [reflexivity|]. split; [reflexivity|]. split; [reflexivity|].
  exact (state_is_set_by_the_call [CallOnExitThen; CallTerminate]
           MoreSamples.image_missing (CallStartRepl 3) _ eq_refl eq_refl eq_refl).
Defined.


(** ** What the run request carries *)

Lemma port_delivered_weaken (ins : list input) (i : input) (f : pc) :
  port_delivered ins f -> port_delivered (ins ++ [i]) f.
Proof.
  unfold port_delivered. destruct f; intros H; try exact I;
    apply in_or_app; left; exact H.
Qed.

Lemma port_delivered_session (ins : list input) :
  port_delivered ins (frame (session ins)).
Proof.
  induction ins as [|i ins IH] using rev_ind; [exact I|].
  rewrite session_snoc, frame_step.
  apply (port_delivered_weaken _ i) in IH.
  assert (Hi : In i (ins ++ [i])) by (apply in_or_app; right; now left).
  revert IH Hi. generalize (ins ++ [i]) as l. intros l IH Hi.
  destruct (session ins) as [ep te st er fr dp mt tr ch]. simpl in IH.
  destruct i; destruct fr as [|a cfg bs c|a b|a b|a b port|a b port ro];
    simpl in *; try exact IH; try exact I;
    unfold run, debug, startRepl, doRun, join, after_boot, after_initialize,
      after_syncConnection, throw, on_pathMappings, suspended, runRequest_settled,
      terminate, onExit_then; simpl;
    repeat match goal with
           | |- context [match ?x with _ => _ end] => is_var x; destruct x; simpl
           end;
    try exact IH; try exact I; try exact Hi.
Qed.

(** The run request of a session that has started carries what the owner
    passed: [run(program)] sends [executeFile] with that file, [debug]
    sends [debugFile] with the file, the uri of the debug driver and the
    terminator, [startRepl] sends [runRepl].  It is sent on the connection
    [createMessageConnection] resolved to, with the port
    [createSyncConnection] resolved to as [syncPort] and transferable. *)
Theorem run_request_carries_the_arguments (pre rest : list input) (c : input) (a : args) :
  no_call pre = true ->
  no_call rest = true ->
  call_args c = Some a ->
  started (session (pre ++ c :: rest)) = true ->
  exists conn port,
    In (CreateMessageConnectionSettled (Fulfilled conn)) (pre ++ c :: rest) /\
    In (CreateSyncConnectionSettled (Fulfilled port)) (pre ++ c :: rest) /\
    exists req,
      request_of_call c port = Some req /\
      filter is_run_request (trace (session (pre ++ c :: rest))) =
        [SendRequest conn req [port]].
Proof.
  intros Hpre _ Hc Hs.
  set (ins := pre ++ c :: rest) in *.
  destruct (started_frame ins Hs) as (a' & b & port & Hf & _ & _).
  pose proof (frame_args_of_call pre rest c a Hpre Hc) as Ha. fold ins in Ha.
  pose proof (fetched_session ins) as Hfetch.
  pose proof (port_delivered_session ins) as Hport.
  pose proof (observe_protocol is_run_request ins run_request_own) as Hobs.
  exists (messageConnection b), port.
  assert (Hreq : filter is_run_request (protocol (frame (session ins))) =
                 [SendRequest (messageConnection b) (run_request a port) [port]] /\
                 boot_fetched ins b /\
                 In (CreateSyncConnectionSettled (Fulfilled port)) ins).
  { destruct Hf as [Hf|[o Hf]]; rewrite Hf in *; simpl in Ha, Hfetch, Hport;
      injection Ha as ->; (split; [|split; assumption]); simpl;
      unfold register_drivers, run_request; destruct (a_mode a); try destruct o;
      reflexivity. }
  destruct Hreq as (Hreq & (_ & _ & Hconn) & Hp).
  split; [exact Hconn|]. split; [exact Hp|].
  rewrite Hobs, Hreq.
  destruct c; try discriminate; simpl in Hc; injection Hc as <-;
    eexists; split; reflexivity.
Qed.

Lemma run_request_carries_the_arguments_witness :
  no_call [CallOnExitThen] = true /\
  no_call Samples.booted = true /\
  call_args (CallDebug "app.py" 3 Samples.debugPorts0 "(Pdb)") =
    Some {| a_mode := Debug; a_pty := 3; a_program := Some "app.py";
            a_debugPorts := Some Samples.debugPorts0; a_terminator := Some "(Pdb)" |} /\
  started (session ([CallOnExitThen] ++
                    CallDebug "app.py" 3 Samples.debugPorts0 "(Pdb)" :: Samples.booted)) =
    true /\
  exists conn port,
    In (CreateMessageConnectionSettled (Fulfilled conn))
      ([CallOnExitThen] ++
       CallDebug "app.py" 3 Samples.debugPorts0 "(Pdb)" :: Samples.booted) /\
    In (CreateSyncConnectionSettled (Fulfilled port))
      ([CallOnExitThen] ++
       CallDebug "app.py" 3 Samples.debugPorts0 "(Pdb)" :: Samples.booted) /\
    exists req,
      request_of_call (CallDebug "app.py" 3 Samples.debugPorts0 "(Pdb)") port = Some req /\
      filter is_run_request
        (trace (session ([CallOnExitThen] ++
                         CallDebug "app.py" 3 Samples.debugPorts0 "(Pdb)" ::
                         Samples.booted))) =
        [SendRequest conn req [port]].
Proof.
  split; [reflexivity|]. split; [reflexivity|]. split; [reflexivity|].
  split; [reflexivity|].
  exact (run_request_carries_the_arguments [CallOnExitThen] Samples.booted
           (CallDebug "app.py" 3 Samples.debugPorts0 "(Pdb)") _
           eq_refl eq_refl eq_refl eq_refl).
Defined.

(** ** Failure of the handshake *)

Lemma exit_callbacks_scope (ins : list input) (r : reason) :
  doRunPromise (session ins) = Some (Rejected r) ->
  exitPromise (session ins) = None /\
  filter is_exit_callback (trace (session ins)) = [].
Proof.
  intros Hd.
  pose proof (invariant_session ins) as Hinv.
  pose proof (observe_protocol is_exit_callback ins exit_callback_own) as Hobs.
  rewrite Hobs, (inv_exit _ Hinv).
  pose proof (inv_doRun _ Hinv) as Hdo.
  destruct (frame (session ins)); simpl in *; try congruence; split; reflexivity.
Qed.


Lemma handshake_failure_step (w : world) (i : input) (r : reason) :
  microtasks w = [] ->
  handshake_failure w i = Some r ->
  step w i = throw r w.
Proof.
  intros Hq Hb. unfold handshake_failure in *. unfold step, handle.
  destruct (suspended w) eqn:Hs; [|discriminate].
  destruct i; try discriminate;
    destruct (frame w); try discriminate;
    repeat match goal with
           | H : match ?x with _ => _ end = Some _ |- _ => destruct x; try discriminate
           end;
    injection Hb as ->; now apply checkpoint_quiet.
Qed.

(** The activation is abandoned where the handshake fails. *)
Lemma handshake_failure_abandons (ins : list input) (i : input) (r : reason)
    (later : list input) :
  handshake_failure (session ins) i = Some r ->
  let w := session (ins ++ i :: later) in
  doRunPromise w = Some (Rejected r) /\
  frame w = frame (session ins) /\
  filter is_registration (trace w) = [] /\
  filter is_signalReady (trace w) = [] /\
  filter is_run_request (trace w) = [] /\
  exitPromise w = None /\
  filter is_exit_callback (trace w) = [].
Proof.
  intros Hb w. subst w.
  pose proof (invariant_session ins) as Hinv.
  pose proof (handshake_failure_step _ _ _ (inv_quiet _ Hinv) Hb) as Hstep.
  assert (Hw : session (ins ++ i :: later) = exec (step (session ins) i) later)
    by (unfold session; rewrite exec_app; reflexivity).
  destruct (abandoned_exec later (step (session ins) i) r) as [Hf Hd].
  { now apply invariant_step. }
  { rewrite Hstep. reflexivity. }
  rewrite <- Hw in Hf, Hd. rewrite Hstep in Hf. simpl in Hf.
  assert (Hns : started (session (ins ++ i :: later)) = false)
    by (unfold started; rewrite Hd; reflexivity).
  destruct (nothing_wired_before_start _ Hns) as (H1 & H2 & H3 & _).
  destruct (exit_callbacks_scope (ins ++ i :: later) r Hd) as [H4 H5].
  repeat split; assumption.
Qed.


(** ** Settled promises stay settled *)

Lemma doRunPromise_stable_step (w : world) (i : input) (o : outcome unit) :
  invariant w ->
  doRunPromise w = Some o ->
  doRunPromise (step w i) = Some o.
Proof.
  intros Hinv Hd. rewrite doRunPromise_step.
  pose proof (inv_doRun _ Hinv) as Hdo.
  destruct w as [ep te st er fr dp mt tr ch]. simpl in *. subst dp.
  destruct i; destruct fr as [|a cfg bs c|a b|a b|a b port|a b port ro];
    simpl in *; try discriminate;
    unfold suspended, runRequest_settled, on_pathMappings, terminate, onExit_then; simpl;
    repeat match goal with
           | |- context [match ?x with _ => _ end] => is_var x; destruct x; simpl
           end;
    reflexivity.
Qed.

Lemma settled_frame_step (w : world) (i : input) (a : args) (b : boot) (port : Port)
    (o : outcome Z) :
  frame w = RunSettled a b port o -> frame (step w i) = RunSettled a b port o.
Proof.
  intros Hf. rewrite frame_step.
  destruct w as [ep te st er fr dp mt tr ch]. simpl in Hf. subst fr.
  destruct i; simpl; try reflexivity.
  - destruct te; reflexivity.
  - destruct ep; reflexivity.
Qed.

Lemma exitPromise_stable_step (w : world) (i : input) (o : outcome value) :
  invariant w ->
  exitPromise w = Some o ->
  exitPromise (step w i) = Some o.
Proof.
  intros Hinv He.
  pose proof (inv_exit _ Hinv) as Hex.
  pose proof (inv_exit _ (invariant_step w i Hinv)) as Hex'.
  destruct (frame w) as [|a cfg bs c|a b|a b|a b port|a b port ro] eqn:Hf;
    try congruence.
  rewrite (settled_frame_step w i a b port ro Hf) in Hex'. congruence.
Qed.

(** Once the promise returned by [run], [debug] or [startRepl] has
    settled, and once the promise of [onExit()] has settled, nothing that
    happens later changes their outcome. *)
Lemma settled_promises_exec (later : list input) :
  forall w : world,
    invariant w ->
    (forall o, doRunPromise w = Some o -> doRunPromise (exec w later) = Some o) /\
    (forall o, exitPromise w = Some o -> exitPromise (exec w later) = Some o).
Proof.
  induction later as [|i later IH]; intros w Hinv; simpl; [auto|].
  destruct (IH (step w i) (invariant_step w i Hinv)) as [H1 H2].
  split; intros o Ho.
  - apply H1. now apply doRunPromise_stable_step.
  - apply H2. now apply exitPromise_stable_step.
Qed.

(** Once the promise returned by [run], [debug] or [startRepl] has
    settled, and once the promise of [onExit()] has settled, nothing that
    happens later changes their outcome. *)
Theorem settled_promises_are_final (ins later : list input) :
  match doRunPromise (session ins) with
  | Some o => doRunPromise (session (ins ++ later)) = Some o
  | None => True
  end /\
  match exitPromise (session ins) with
  | Some o => exitPromise (session (ins ++ later)) = Some o
  | None => True
  end.
Proof.
  unfold session. rewrite exec_app. fold (session ins).
  destruct (settled_promises_exec later _ (invariant_session ins)) as [H1 H2].
  split.
  - destruct (doRunPromise (session ins)) as [o|]; [now apply H1 | exact I].
  - destruct (exitPromise (session ins)) as [o|]; [now apply H2 | exact I].
Qed.

(** ** The order of the boot *)

(** Removes the checkpoints of a quiet launcher, the innermost first. *)
Ltac innermost_checkpoints :=
  repeat match goal with
         | |- context [checkpoint ?w] =>
             match w with
             | context [checkpoint _] => fail 1
             | _ => rewrite (checkpoint_quiet w) by reflexivity; simpl
             end
         end.

Lemma three_permuted {A : Type} (x y z : A) (p : list A) :
  Permutation p [x; y; z] ->
  p = [x; y; z] \/ p = [x; z; y] \/ p = [y; x; z] \/
  p = [y; z; x] \/ p = [z; x; y] \/ p = [z; y; x].
Proof.
  intros Hp. apply Permutation_sym in Hp.
  assert (Hx : In x p) by (eapply Permutation_in; [exact Hp | now left]).
  apply in_split in Hx. destruct Hx as (l1 & l2 & ->).
  apply Permutation_cons_app_inv in Hp.
  apply Permutation_length_2_inv in Hp.
  destruct Hp as [Hp|Hp];
    destruct l1 as [|a [|b [|c l1]]]; simpl in Hp;
    try (destruct l1; discriminate);
    try (injection Hp as -> ->); try (injection Hp as ->); subst; simpl; tauto.
Qed.


(** The three promises of the boot may fulfil in any order: whichever is
    last, the launcher then listens, registers the [pathMappings] handler
    and sends [initialize] with the three results, and it ends in the same
    state. *)
Theorem boot_completes_in_any_order (ins : list input) (a : args) (cfg : Config)
    (bs : SharedBytes) (conn : MessageConnection) (p : list input) :
  frame (session ins) = AwaitBoot a None None None ->
  suspended (session ins) = true ->
  Permutation p [GetConfigSettled (Fulfilled cfg); SharedWasmBytesSettled (Fulfilled bs);
                 CreateMessageConnectionSettled (Fulfilled conn)] ->
  session (ins ++ p) =
  after_boot a {| b_config := cfg; sharedWasmBytes := bs; messageConnection := conn |}
    (set_channel (Some Channel.created) (session ins)).
Proof.
  intros Hf Hs Hp. unfold session. rewrite exec_app. fold (session ins).
  pose proof (inv_quiet _ (invariant_session ins)) as Hq.
  destruct (session ins) as [ep te st er fr dp mt tr ch]. unfold suspended in Hs.
  simpl in *. subst fr mt. destruct dp; [discriminate|].
  apply three_permuted in Hp.
  destruct Hp as [->|[->|[->|[->|[->| ->]]]]];
    unfold exec, fold_left, step, handle; simpl;
    innermost_checkpoints; reflexivity.
Qed.

Lemma boot_completes_in_any_order_witness :
  frame (session [CallRun "app.py" 3]) =
    AwaitBoot
      {| a_mode := Run; a_pty := 3; a_program := Some "app.py";
         a_debugPorts := None; a_terminator := None |} None None None /\
  suspended (session [CallRun "app.py" 3]) = true /\
  Permutation
    [CreateMessageConnectionSettled (Fulfilled 1);
     GetConfigSettled (Fulfilled Samples.config0);
     SharedWasmBytesSettled (Fulfilled Samples.wasm0)]
    [GetConfigSettled (Fulfilled Samples.config0);
     SharedWasmBytesSettled (Fulfilled Samples.wasm0);
     CreateMessageConnectionSettled (Fulfilled 1)] /\
  session ([CallRun "app.py" 3] ++
           [CreateMessageConnectionSettled (Fulfilled 1);
            GetConfigSettled (Fulfilled Samples.config0);
            SharedWasmBytesSettled (Fulfilled Samples.wasm0)]) =
  after_boot
    {| a_mode := Run; a_pty := 3; a_program := Some "app.py";
       a_debugPorts := None; a_terminator := None |}
    {| b_config := Samples.config0; sharedWasmBytes := Samples.wasm0;
       messageConnection := 1 |}
    (set_channel (Some Channel.created) (session [CallRun "app.py" 3])).
Proof.
  split; [reflexivity|]. split; [reflexivity|].
  split;
    [exact (Permutation_cons_append
              [GetConfigSettled (Fulfilled Samples.config0);
               SharedWasmBytesSettled (Fulfilled Samples.wasm0)]
              (CreateMessageConnectionSettled (Fulfilled 1)))|].
  exact (boot_completes_in_any_order [CallRun "app.py" 3] _ Samples.config0
           Samples.wasm0 1 _ eq_refl eq_refl
           (Permutation_cons_append
              [GetConfigSettled (Fulfilled Samples.config0);
               SharedWasmBytesSettled (Fulfilled Samples.wasm0)]
              (CreateMessageConnectionSettled (Fulfilled 1)))).
Defined.


(** ** The reactions to [onExit()] *)

Lemma filter_observed_repeat (o : outcome value) (n : nat) :
  filter is_observed (repeat (ExitObserved o) n) = repeat (ExitObserved o) n.
Proof. induction n as [|n IH]; simpl; [reflexivity | now rewrite IH]. Qed.

Lemma attached_snoc (ins : list input) (i : input) :
  attached (ins ++ [i]) = attached ins + (if is_onExit_then i then 1 else 0).
Proof.
  unfold attached. rewrite filter_app, length_app. simpl.
  destruct (is_onExit_then i); reflexivity.
Qed.

Lemma reactions_of_session (ins : list input) :
  match frame (session ins) with
  | RunSettled _ _ _ o =>
      filter is_observed (trace (session ins)) =
        repeat (ExitObserved (outcome_map VNumber o)) (attached ins) /\
      exitReactions (session ins) = 0
  | _ =>
      filter is_observed (trace (session ins)) = [] /\
      exitReactions (session ins) = attached ins
  end.
Proof.
  induction ins as [|i ins IH] using rev_ind; [split; reflexivity|].
  rewrite session_snoc, attached_snoc.
  destruct (invariant_session ins) as [Ht Hq _ _ _ _ Hex _ _].
  revert IH. generalize (attached ins) as n. intros n IH.
  unfold step.
  destruct (session ins) as [ep te st er fr dp mt tr ch]. simpl in *. subst mt te.
  destruct i; destruct fr as [|a cfg bs c|a b|a b|a b port|a b port ro];
    simpl in *; subst ep; destruct IH as [Ho Hr]; subst er;
    unfold run, debug, startRepl, doRun, join, after_boot, after_initialize,
      after_syncConnection, throw, on_pathMappings, suspended; simpl;
    repeat match goal with
           | |- context [match ?x with _ => _ end] => is_var x; destruct x; simpl
           end;
    try settle_checkpoint; unfold_world;
    rewrite ?filter_app, ?filter_observed_repeat, ?Ho; simpl;
    rewrite ?app_nil_r, ?Nat.add_0_r;
    try (split; reflexivity).
  all: try (unfold register_drivers; destruct (a_mode a); simpl;
            rewrite ?filter_app, ?Ho; split; reflexivity).
  all: try (split; [|reflexivity]).
  all: try (split; [reflexivity | lia]).
  - replace (n + 1) with (S n) by lia. simpl. symmetry. apply repeat_cons.
  - destruct o; simpl; rewrite filter_app, filter_observed_repeat; simpl;
      apply app_nil_r.
Qed.

(** Every reaction attached to [onExit()] runs exactly once, with the
    outcome of the exit promise, and none runs while the promise is
    pending: then they are all waiting. *)
Theorem each_reaction_runs_once (ins : list input) :
  let w := session ins in
  match exitPromise w with
  | Some o =>
      filter is_observed (trace w) = repeat (ExitObserved o) (attached ins) /\
      exitReactions w = 0
  | None =>
      filter is_observed (trace w) = [] /\
      exitReactions w = attached ins
  end.
Proof.
  intros w. subst w.
  pose proof (reactions_of_session ins) as H.
  rewrite (inv_exit _ (invariant_session ins)).
  destruct (frame (session ins)); exact H.
Qed.

(** ** Path mappings *)

Lemma notified_step (w : world) (m : PathMapping) :
  microtasks w = [] -> notified w = true ->
  step w (PathMappingsNotified m) = emit [FirePathMapping m] w.
Proof.
  intros Hq Hn. unfold step, handle, notified in *.
  destruct (frame w); try discriminate;
    unfold on_pathMappings; now apply checkpoint_quiet.
Qed.

(** Once the [pathMappings] handler is registered, the mappings the worker
    notifies are fired on [onPathMapping] one for one, in the order they
    arrive, and they change nothing else of the launcher. *)
Theorem path_mappings_are_forwarded (ins : list input) (ms : list PathMapping) :
  notified (session ins) = true ->
  session (ins ++ map PathMappingsNotified ms) =
  emit (map FirePathMapping ms) (session ins).
Proof.
  intros Hn. unfold session. rewrite exec_app. fold (session ins).
  pose proof (inv_quiet _ (invariant_session ins)) as Hq.
  revert Hn Hq. generalize (session ins) as w.
  induction ms as [|m ms IH]; intros w Hn Hq; simpl.
  - destruct w. unfold emit. simpl. rewrite app_nil_r. reflexivity.
  - rewrite (notified_step w m Hq Hn).
    rewrite IH by (destruct w; assumption).
    destruct w. unfold emit. simpl. rewrite <- app_assoc. reflexivity.
Qed.

Lemma path_mappings_are_forwarded_witness :
  notified (session Samples.run_app) = true /\
  session (Samples.run_app ++ map PathMappingsNotified MoreSamples.mappings) =
  emit (map FirePathMapping MoreSamples.mappings) (session Samples.run_app).
Proof.
  split; [reflexivity|].
  exact (path_mappings_are_forwarded Samples.run_app MoreSamples.mappings eq_refl).
Defined.

End LauncherExtraFacts.

(** * Further properties of the extension *)

Module ExtensionExtraFacts.
Import Extension ExtensionFacts ExtensionExtra.

(** What [resolveDebugConfiguration] makes of [config] before it looks at
    its program. *)
Lemma resolve_cases (languageId : option string) (dismissed : promise unit)
    (config : DebugConfiguration) :
  exists config',
    (config' = config \/
     (unspecified config = true /\ languageId = Some "python" /\ config' = launch_file)) /\
    resolveDebugConfiguration (Some (Fulfilled tt)) languageId dismissed config =
    if falsy (program config') then
      ([showInformationMessage "Cannot find a Python file to debug"],
       match dismissed with
       | Some (Fulfilled _) => Normal None
       | Some (Rejected e) => Thrown e
       | None => Suspended
       end)
    else ([], Normal (Some config')).
Proof.
  unfold resolveDebugConfiguration, unspecified.
  destruct (falsy (type config) && falsy (request config) && falsy (name config)) eqn:Hu.
  - destruct languageId as [l|].
    + destruct (String.eqb l "python") eqn:Hl.
      * apply String.eqb_eq in Hl. subst l.
        exists launch_file. split; [right; auto|]. reflexivity.
      * exists config. split; [left; reflexivity|].
        simpl. destruct (falsy (program config)); [|reflexivity].
        destruct dismissed as [[[]|e]|]; reflexivity.
    + exists config. split; [left; reflexivity|].
      simpl. destruct (falsy (program config)); [|reflexivity].
      destruct dismissed as [[[]|e]|]; reflexivity.
  - exists config. split; [left; reflexivity|].
    simpl. destruct (falsy (program config)); [|reflexivity].
    destruct dismissed as [[[]|e]|]; reflexivity.
Qed.

(** Once the preload is done, [resolveDebugConfiguration] either returns a
    configuration that has a program, and shows nothing, or it shows the
    message that no Python file was found, once, and returns no
    configuration: [undefined] exactly when the message is dismissed. *)
Theorem resolution_returns_a_program_or_the_message (languageId : option string)
    (dismissed : promise unit) (config : DebugConfiguration) :
  let r := resolveDebugConfiguration (Some (Fulfilled tt)) languageId dismissed config in
  (exists config', r = ([], Normal (Some config')) /\ falsy (program config') = false) \/
  (fst r = [showInformationMessage "Cannot find a Python file to debug"] /\
   (forall config', snd r <> Normal (Some config')) /\
   (snd r = Normal None <-> dismissed = Some (Fulfilled tt))).
Proof.
  intros r. subst r.
  destruct (resolve_cases languageId dismissed config) as (c' & _ & ->).
  destruct (falsy (program c')) eqn:Hp.
  - right. simpl. split; [reflexivity|]. split.
    + intros c''. destruct dismissed as [[[]|e]|]; discriminate.
    + destruct dismissed as [[[]|e]|]; split; intros H; try discriminate; reflexivity.
  - left. exists c'. auto.
Qed.

(** A configuration [resolveDebugConfiguration] returns is the one it was
    given, which then has a program, unless that one had none of [type],
    [request] and [name] and a Python file is in the active editor: then
    it is the launch configuration of [${file}], whatever program it was
    given. *)
Theorem resolution_rewrites_only_unspecified (preload : promise unit)
    (languageId : option string) (dismissed : promise unit)
    (config config' : DebugConfiguration) :
  snd (resolveDebugConfiguration preload languageId dismissed config) =
    Normal (Some config') ->
  (config' = config /\ falsy (program config) = false) \/
  (unspecified config = true /\ languageId = Some "python" /\ config' = launch_file).
Proof.
  intros H.
  destruct preload as [[[]|e]|]; try discriminate.
  destruct (resolve_cases languageId dismissed config) as (c' & Hc & Hr).
  rewrite Hr in H.
  destruct (falsy (program c')) eqn:Hp.
  - simpl in H. destruct dismissed as [[[]|e]|]; discriminate.
  - simpl in H. injection H as <-.
    destruct Hc as [->|(Hu & Hl & ->)]; [left; auto | right; auto].
Qed.

Lemma resolution_rewrites_only_unspecified_witness :
  snd (resolveDebugConfiguration (Some (Fulfilled tt)) (Some "python") None
         MoreSamples.program_only) = Normal (Some launch_file) /\
  ((launch_file = MoreSamples.program_only /\
    falsy (program MoreSamples.program_only) = false) \/
   (unspecified MoreSamples.program_only = true /\
    Some "python" = Some "python" /\ launch_file = launch_file)).
Proof.
  split; [reflexivity|].
  exact (resolution_rewrites_only_unspecified (Some (Fulfilled tt)) (Some "python") None
           MoreSamples.program_only launch_file eq_refl).
Defined.

(** Resolving is idempotent: a configuration [resolveDebugConfiguration]
    has returned is returned unchanged, with no message, when it is
    resolved again. *)
Theorem resolution_is_idempotent (preload : promise unit) (languageId : option string)
    (dismissed dismissed' : promise unit) (config config' : DebugConfiguration) :
  snd (resolveDebugConfiguration preload languageId dismissed config) =
    Normal (Some config') ->
  resolveDebugConfiguration (Some (Fulfilled tt)) languageId dismissed' config' =
    ([], Normal (Some config')).
Proof.
  intros H.
  destruct (resolution_rewrites_only_unspecified _ _ _ _ _ H)
    as [[-> Hp]|(Hu & Hl & ->)].
  - destruct (resolve_cases languageId dismissed' config) as (c' & Hc & Hr).
    destruct Hc as [->|(Hu & Hl & ->)].
    + rewrite Hr, Hp. reflexivity.
    + exfalso. subst languageId.
      destruct preload as [[[]|e]|]; try discriminate.
      unfold resolveDebugConfiguration in H. unfold unspecified in Hu.
      rewrite Hu in H. simpl in H. injection H as H.
      rewrite <- H in Hu. discriminate.
  - reflexivity.
Qed.

Lemma resolution_is_idempotent_witness :
  snd (resolveDebugConfiguration (Some (Fulfilled tt)) (Some "markdown") None
         MoreSamples.program_only) = Normal (Some MoreSamples.program_only) /\
  resolveDebugConfiguration (Some (Fulfilled tt)) (Some "markdown") None
    MoreSamples.program_only = ([], Normal (Some MoreSamples.program_only)).
Proof.
  split; [reflexivity|].
  exact (resolution_is_idempotent (Some (Fulfilled tt)) (Some "markdown") None None
           MoreSamples.program_only MoreSamples.program_only eq_refl).
Defined.


(** The commands [runEditorContents] and [debugEditorContents] work on
    their argument, or else on the document of the active editor.  With
    neither they return [false] at once, without waiting for the preload.
    Otherwise they wait for the preload and then start debugging once,
    with the [fsPath] of that resource as the program ([noDebug] for the run command,
    [stopOnEntry] for the debug command), and return what
    [startDebugging] answers. *)
Theorem commands_start_debugging_the_target (preload : promise unit)
    (resource activeDocument : option Resource) (answer : promise bool) :
  match targetResource resource activeDocument with
  | None =>
      runEditorContents preload resource activeDocument answer = ([], Normal false) /\
      debugEditorContents preload resource activeDocument answer = ([], Normal false)
  | Some target =>
      match preload with
      | Some (Fulfilled _) =>
          runEditorContents preload resource activeDocument answer =
            ([startDebugging
                {| type := Some "python-web-wasm"; request := Some "launch";
                   name := Some "Run Python in WASM"; program := Some (fsPath target);
                   stopOnEntry := None |} true],
             snd (await answer)) /\
          debugEditorContents preload resource activeDocument answer =
            ([startDebugging
                {| type := Some "python-web-wasm"; request := Some "launch";
                   name := Some "Debug Python in WASM"; program := Some (fsPath target);
                   stopOnEntry := Some true |} false],
             snd (await answer))
      | Some (Rejected e) =>
          runEditorContents preload resource activeDocument answer = ([], Thrown e) /\
          debugEditorContents preload resource activeDocument answer = ([], Thrown e)
      | None =>
          runEditorContents preload resource activeDocument answer = ([], Suspended) /\
          debugEditorContents preload resource activeDocument answer = ([], Suspended)
      end
  end.
Proof.
  unfold targetResource, runEditorContents, debugEditorContents.
  destruct resource as [r|]; [|destruct activeDocument as [d|]];
    try (split; reflexivity);
    destruct preload as [[[]|e]|]; simpl;
    try (split; reflexivity);
    destruct answer as [[b|e]|]; split; reflexivity.
Qed.

(** ** The preload *)

(** Case analysis on the answers of the host. *)
Ltac host_cases :=
  repeat (simpl;
          match goal with
          | |- context [match getExtension ?h ?i with _ => _ end] =>
              destruct (getExtension h i) as [[?|]|?|]
          | |- context [match activate ?e with _ => _ end] =>
              destruct (activate e) as [[[?|?]|]|?|]
          | |- context [match loadWorkspaceContents ?a with _ => _ end] =>
              destruct (loadWorkspaceContents a)
          | |- context [match Uri_parse ?h ?u with _ => _ end] =>
              destruct (Uri_parse h u)
          | |- context [match Uri_joinPath ?h ?u ?p with _ => _ end] =>
              destruct (Uri_joinPath h u p)
          | |- context [match readFile ?h ?u with _ => _ end] =>
              destruct (readFile h u)
          | |- context [match ?f ?u with _ => _ end] =>
              is_var f; destruct (f u) as [[[?|?]|]|?|]
          end).

(** The promise [readFile] returns is dropped: whether it fulfils, rejects
    or never settles makes no difference to what [preloadPython] does,
    logs and returns. *)
Theorem readFile_promise_is_dropped (fate : Uri -> promise (list nat)) (h : Host) :
  preloadPython (with_readFile_fate fate h) = preloadPython h.
Proof.
  unfold preloadPython, preload_body, getRemoteHubExtension, with_readFile_fate.
  simpl. host_cases; reflexivity.
Qed.

(** When none of the three RemoteHub extensions is installed,
    [preloadPython] only looks them up, in their order, logs nothing, and
    its promise fulfils. *)
Theorem preload_without_remoteHub (h : Host) :
  (forall id, In id remoteHubIds -> getExtension h id = Normal None) ->
  preloadPython h = (map GetExtension remoteHubIds, Normal tt) /\
  preloadPromise h = Some (Fulfilled tt).
Proof.
  intros Hn. unfold preloadPromise, async.
  assert (H : preloadPython h = (map GetExtension remoteHubIds, Normal tt)).
  { unfold preloadPython, preload_body, getRemoteHubExtension. simpl.
    rewrite !Hn by (simpl; tauto). reflexivity. }
  rewrite H. split; reflexivity.
Qed.

Lemma preload_without_remoteHub_witness :
  (forall id, In id remoteHubIds ->
     getExtension MoreSamples.host_without_remoteHub id = Normal None) /\
  preloadPython MoreSamples.host_without_remoteHub =
    (map GetExtension remoteHubIds, Normal tt) /\
  preloadPromise MoreSamples.host_without_remoteHub = Some (Fulfilled tt).
Proof.
  split; [intros id _; reflexivity|].
  exact (preload_without_remoteHub MoreSamples.host_without_remoteHub
           (fun _ _ => eq_refl)).
Defined.


(** The same, keeping what the host answered. *)
Ltac host_cases_eq :=
  repeat (simpl;
          match goal with
          | |- context [match getExtension ?h ?i with _ => _ end] =>
              destruct (getExtension h i) as [[?|]|?|] eqn:?
          | |- context [match activate ?e with _ => _ end] =>
              destruct (activate e) as [[[?|?]|]|?|] eqn:?
          | |- context [match loadWorkspaceContents ?a with _ => _ end] =>
              destruct (loadWorkspaceContents a) eqn:?
          | |- context [match Uri_parse ?h ?u with _ => _ end] =>
              destruct (Uri_parse h u) eqn:?
          | |- context [match Uri_joinPath ?h ?u ?p with _ => _ end] =>
              destruct (Uri_joinPath h u p) eqn:?
          | |- context [match readFile ?h ?u with _ => _ end] =>
              destruct (readFile h u) eqn:?
          | |- context [match ?f ?u with _ => _ end] =>
              is_var f; destruct (f u) as [[[?|?]|]|?|] eqn:?
          end).

(** [preloadPython] reads a file only after an installed RemoteHub
    extension has been activated and its [loadWorkspaceContents] has
    fulfilled for the repository of the interpreter, and the file it reads
    is [python.wasm] in that repository; after the read it at most logs an
    error. *)
Theorem python_wasm_is_read_after_loading (h : Host) (file : Uri) :
  In (ReadFile file) (fst (preloadPython h)) ->
  exists ext api load uri loaded,
    (exists i, In i remoteHubIds /\ getExtension h i = Normal (Some ext)) /\
    activate ext = Normal (Some (Fulfilled api)) /\
    loadWorkspaceContents api = Some load /\
    Uri_parse h "vscode-vfs://github/dbaeumer/python-3.11.0rc" = Normal uri /\
    load uri = Normal (Some (Fulfilled loaded)) /\
    Uri_joinPath h uri "python.wasm" = Normal file /\
    exists lookups tail,
      fst (preloadPython h) =
        lookups ++ [Activate (id ext); LoadWorkspaceContents uri; ReadFile file] ++ tail /\
      (tail = [] \/ exists e, tail = [ConsoleLog e]).
Proof.
  unfold preloadPython, preload_body, getRemoteHubExtension, remoteHubIds.
  host_cases_eq; intros H; simpl in H;
    try (exfalso; intuition discriminate).
  all: repeat match goal with
         | H : _ \/ _ |- _ => destruct H as [H|H]; try discriminate; try contradiction
         end;
       try match goal with
           | H : ReadFile _ = ReadFile _ |- _ => injection H as <-
           end.
  all: do 5 eexists; repeat split; eauto.
  all: cbn.
  all: try solve [eexists; split; [|eassumption]; simpl; tauto].
  all:
    first
      [ exists [GetExtension "ms-vscode.remote-repositories"]; eexists;
        split; [reflexivity | (left; reflexivity) || (right; eexists; reflexivity)]
      | exists [GetExtension "ms-vscode.remote-repositories";
                GetExtension "GitHub.remoteHub"]; eexists;
        split; [reflexivity | (left; reflexivity) || (right; eexists; reflexivity)]
      | exists [GetExtension "ms-vscode.remote-repositories";
                GetExtension "GitHub.remoteHub";
                GetExtension "GitHub.remoteHub-insiders"]; eexists;
        split; [reflexivity | (left; reflexivity) || (right; eexists; reflexivity)] ].
Qed.

Lemma python_wasm_is_read_after_loading_witness :
  In (ReadFile "vscode-vfs://github/dbaeumer/python-3.11.0rc/python.wasm")
    (fst (preloadPython MoreSamples.host_loads)) /\
  exists ext api load uri loaded,
    (exists i, In i remoteHubIds /\
               getExtension MoreSamples.host_loads i = Normal (Some ext)) /\
    activate ext = Normal (Some (Fulfilled api)) /\
    loadWorkspaceContents api = Some load /\
    Uri_parse MoreSamples.host_loads "vscode-vfs://github/dbaeumer/python-3.11.0rc" =
      Normal uri /\
    load uri = Normal (Some (Fulfilled loaded)) /\
    Uri_joinPath MoreSamples.host_loads uri "python.wasm" =
      Normal "vscode-vfs://github/dbaeumer/python-3.11.0rc/python.wasm" /\
    exists lookups tail,
      fst (preloadPython MoreSamples.host_loads) =
        lookups ++
        [Activate (id ext); LoadWorkspaceContents uri;
         ReadFile "vscode-vfs://github/dbaeumer/python-3.11.0rc/python.wasm"] ++ tail /\
      (tail = [] \/ exists e, tail = [ConsoleLog e]).
Proof.
  split; [simpl; tauto|].
  apply (python_wasm_is_read_after_loading MoreSamples.host_loads).
  simpl. tauto.
Defined.

End ExtensionExtraFacts.


(** * The claims on a launcher used for one session *)

Module SessionFacts.
Import Launcher LauncherFacts LauncherExtra LauncherExtraFacts.

(** ** The boot of a session *)

Lemma no_call_snoc (ins : list input) (i : input) :
  no_call (ins ++ [i]) = true -> no_call ins = true /\ is_call i = false.
Proof.
  unfold no_call. rewrite forallb_app. simpl. rewrite andb_true_r.
  intros H. apply andb_true_iff in H. destruct H as [H1 H2].
  split; [exact H1|]. now apply negb_true_iff.
Qed.

Lemma first_settled_snoc {A : Type} (pick : input -> option (outcome A))
    (ins : list input) (i : input) :
  first_settled pick (ins ++ [i]) =
  match first_settled pick ins with
  | Some o => Some o
  | None => pick i
  end.
Proof.
  induction ins as [|j ins IH]; simpl.
  - destruct (pick i); reflexivity.
  - destruct (pick j); [reflexivity | exact IH].
Qed.

Lemma suspended_step (w : world) (i : input) :
  suspended (step w i) = suspended (handle i w).
Proof. unfold suspended. now rewrite doRunPromise_step. Qed.

Lemma session_after_call (pre : list input) (c : input) (a : args) :
  no_call pre = true -> call_args c = Some a ->
  frame (session (pre ++ [c])) = AwaitBoot a None None None /\
  suspended (session (pre ++ [c])) = true.
Proof.
  intros Hpre Hc.
  pose proof (idle_without_call pre Hpre) as Hidle.
  pose proof (inv_doRun _ (invariant_session pre)) as Hdo. rewrite Hidle in Hdo.
  rewrite session_snoc, frame_step, suspended_step. unfold suspended, handle.
  rewrite Hidle.
  destruct c; try discriminate; simpl in Hc; injection Hc as <-;
    simpl; rewrite Hdo; split; reflexivity.
Qed.

Lemma boot_progress_session (pre rest : list input) (c : input) (a : args) :
  no_call pre = true -> no_call rest = true -> call_args c = Some a ->
  boot_progress rest (session (pre ++ c :: rest)).
Proof.
  intros Hpre Hrest Hc.
  induction rest as [|i rest IH] using rev_ind.
  - destruct (session_after_call pre c a Hpre Hc) as [Hf Hs].
    unfold boot_progress. rewrite Hf, Hs. simpl. auto.
  - apply no_call_snoc in Hrest. destruct Hrest as [Hrest Hi].
    specialize (IH Hrest).
    replace (pre ++ c :: rest ++ [i]) with ((pre ++ c :: rest) ++ [i])
      by (rewrite <- app_assoc; reflexivity).
    rewrite session_snoc.
    unfold boot_progress in *.
    rewrite frame_step, suspended_step, !first_settled_snoc.
    revert IH.
    generalize (first_settled getConfig_settled rest) as fg.
    generalize (first_settled sharedWasmBytes_settled rest) as fs.
    generalize (first_settled createMessageConnection_settled rest) as fc.
    intros fc fs fg.
    destruct (session (pre ++ c :: rest)) as [ep te st er fr dp mt tr ch].
    unfold suspended. simpl.
    destruct i; try discriminate;
      destruct fr as [|a0 cfg bs conn|a0 b|a0 b|a0 b port|a0 b port ro];
      simpl; intros Hprog; try contradiction;
      unfold join, after_boot, after_initialize, after_syncConnection, throw,
        on_pathMappings, suspended, runRequest_settled, terminate, onExit_then; simpl;
      repeat match goal with
             | |- context [match ?x with _ => _ end] => is_var x; destruct x; simpl in *
             | H : context [match ?x with _ => _ end] |- _ => is_var x; destruct x; simpl in *
             end;
      repeat match goal with
             | H : _ /\ _ |- _ => destruct H
             | H : _ \/ _ |- _ => destruct H
             | H : exists _, _ |- _ => destruct H
             end;
      subst; simpl in *; try discriminate; try congruence;
      eauto 10.
Qed.


Lemma boot_results_of_progress (rest : list input) (w : world) :
  boot_progress rest w ->
  match frame w with
  | Idle => False
  | AwaitBoot _ _ _ _ => boot_results rest = None
  | AwaitInitialize _ b | AwaitSyncConnection _ b
  | AwaitRunRequest _ b _ | RunSettled _ b _ _ => boot_results rest = Some b
  end.
Proof.
  unfold boot_progress, boot_results.
  destruct (frame w) as [|a cfg bs conn|a b|a b|a b port|a b port ro]; auto.
  - destruct (suspended w).
    + intros (-> & -> & -> & H).
      destruct H as [->|[->| ->]]; simpl; try reflexivity;
        destruct cfg; simpl; try reflexivity; destruct bs; reflexivity.
    + intros [[r ->]|[[r ->]|[r ->]]]; try reflexivity.
      * destruct (first_settled getConfig_settled rest) as [[|]|]; reflexivity.
      * destruct (first_settled getConfig_settled rest) as [[|]|]; try reflexivity;
          destruct (first_settled sharedWasmBytes_settled rest) as [[|]|]; reflexivity.
  - intros (-> & -> & ->). destruct b; reflexivity.
  - intros (-> & -> & ->). destruct b; reflexivity.
  - intros (-> & -> & ->). destruct b; reflexivity.
  - intros (-> & -> & ->). destruct b; reflexivity.
Qed.

(** ** The claims on a session *)

(** C4.  On a launcher that is called once, in any mode, no request is
    sent before the call, and none while one of the three promises of the
    boot (image and root, shared binary, connection) has not fulfilled.
    Once the three have fulfilled, the first request sent is [initialize],
    on the connection and with the image, root and binary they resolved
    to; the requests after it are not [initialize]: there is at most one,
    the run request, on the same connection. *)
Theorem initialize_is_first_request (pre rest : list input) (c : input) (a : args) :
  no_call pre = true ->
  no_call rest = true ->
  call_args c = Some a ->
  let w := session (pre ++ c :: rest) in
  filter is_request (trace (session pre)) = [] /\
  match boot_results rest with
  | Some b =>
      exists others,
        filter is_request (trace w) =
          SendRequest (messageConnection b)
            (initialize (Uri_toString (repository (b_config b)) true) (root (b_config b))
               (sharedWasmBytes b)) [] :: others /\
        filter is_initialize others = [] /\
        (others = [] \/
         exists port,
           others = [SendRequest (messageConnection b) (run_request a port) [port]])
  | None => filter is_request (trace w) = []
  end.
Proof.
  intros Hpre Hrest Hc w. subst w. split.
  - rewrite (observe_protocol is_request pre request_own), requests_of_protocol.
    now rewrite (idle_without_call pre Hpre).
  - pose proof (boot_results_of_progress _ _ (boot_progress_session pre rest c a Hpre Hrest Hc))
      as Hb.
    pose proof (frame_args_of_call pre rest c a Hpre Hc) as Ha.
    rewrite (observe_protocol is_request _ request_own), requests_of_protocol.
    destruct (frame (session (pre ++ c :: rest)))
      as [|a0 cfg bs conn|a0 b|a0 b|a0 b port|a0 b port ro];
      try contradiction; rewrite Hb; simpl in Ha; try injection Ha as ->.
    + reflexivity.
    + exists []. repeat split; auto.
    + exists []. repeat split; auto.
    + eexists. repeat split; [apply run_request_not_initialize | right; eauto].
    + eexists. repeat split; [apply run_request_not_initialize | right; eauto].
Qed.

Lemma initialize_is_first_request_witness :
  no_call [CallOnExitThen] = true /\
  no_call Samples.booted = true /\
  call_args MoreSamples.call_run = Some MoreSamples.run_args /\
  (let w := session ([CallOnExitThen] ++ MoreSamples.call_run :: Samples.booted) in
  filter is_request (trace (session [CallOnExitThen])) = [] /\
  match boot_results Samples.booted with
  | Some b =>
      exists others,
        filter is_request (trace w) =
          SendRequest (messageConnection b)
            (initialize (Uri_toString (repository (b_config b)) true) (root (b_config b))
               (sharedWasmBytes b)) [] :: others /\
        filter is_initialize others = [] /\
        (others = [] \/
         exists port,
           others =
             [SendRequest (messageConnection b) (run_request MoreSamples.run_args port)
                [port]])
  | None => filter is_request (trace w) = []
  end).
Proof.
  split; [reflexivity|].
  split; [reflexivity|].
  split; [reflexivity|].
  exact (initialize_is_first_request [CallOnExitThen] Samples.booted
           MoreSamples.call_run _ eq_refl eq_refl eq_refl).
Defined.



(** C2, as amended.  If one of the three fetches of the boot fails, then,
    whatever happens afterwards on a launcher that is not called again,
    the session stays in its boot and never runs, no request is sent
    ([initialize] is not), and the promise returned by [run], [debug] or
    [startRepl] has rejected with the reason of the failure.  The promise
    of [onExit()] stays pending: neither exit callback is called. *)
Theorem boot_failure_rejects_doRun (ins : list input) (i : input) (r : reason)
    (later : list input) :
  one_session (ins ++ i :: later) = true ->
  boot_failure (session ins) i = Some r ->
  let w := session (ins ++ i :: later) in
  doRunPromise w = Some (Rejected r) /\
  booting w = true /\
  filter is_request (trace w) = [] /\
  exitPromise w = None /\
  filter is_exit_callback (trace w) = [].
Proof. intros _. exact (boot_failure_abandons ins i r later). Qed.

Lemma boot_failure_rejects_doRun_witness :
  one_session (MoreSamples.repl_booting ++ MoreSamples.no_worker ::
           MoreSamples.after_no_worker) = true /\
  boot_failure (session MoreSamples.repl_booting) MoreSamples.no_worker =
    Some "no worker" /\
  (let w := session (MoreSamples.repl_booting ++ MoreSamples.no_worker ::
           MoreSamples.after_no_worker) in
  doRunPromise w = Some (Rejected "no worker") /\
  booting w = true /\
  filter is_request (trace w) = [] /\
  exitPromise w = None /\
  filter is_exit_callback (trace w) = []).
Proof.
  split; [reflexivity|].
  split; [reflexivity|].
  exact (boot_failure_rejects_doRun MoreSamples.repl_booting MoreSamples.no_worker
           "no worker" MoreSamples.after_no_worker eq_refl eq_refl).
Defined.

(** If the [initialize] request or [createSyncConnection] rejects, the
    promise returned by [run], [debug] or [startRepl] rejects with that
    reason and, on a launcher that is not called again, [doRun] stops
    there for good: no device is registered, [signalReady()] is not
    called, no run request is sent, and the promise of [onExit()] stays
    pending. *)
Theorem handshake_failure_rejects_doRun (ins : list input) (i : input) (r : reason)
    (later : list input) :
  one_session (ins ++ i :: later) = true ->
  handshake_failure (session ins) i = Some r ->
  let w := session (ins ++ i :: later) in
  doRunPromise w = Some (Rejected r) /\
  frame w = frame (session ins) /\
  filter is_registration (trace w) = [] /\
  filter is_signalReady (trace w) = [] /\
  filter is_run_request (trace w) = [] /\
  exitPromise w = None /\
  filter is_exit_callback (trace w) = [].
Proof. intros _. exact (handshake_failure_abandons ins i r later). Qed.

Lemma handshake_failure_rejects_doRun_witness :
  one_session (MoreSamples.run_app_initializing ++ MoreSamples.not_ready ::
           MoreSamples.after_not_ready) = true /\
  handshake_failure (session MoreSamples.run_app_initializing) MoreSamples.not_ready =
    Some "worker not ready" /\
  (let w := session (MoreSamples.run_app_initializing ++ MoreSamples.not_ready ::
           MoreSamples.after_not_ready) in
  doRunPromise w = Some (Rejected "worker not ready") /\
  frame w = frame (session MoreSamples.run_app_initializing) /\
  filter is_registration (trace w) = [] /\
  filter is_signalReady (trace w) = [] /\
  filter is_run_request (trace w) = [] /\
  exitPromise w = None /\
  filter is_exit_callback (trace w) = []).
Proof.
  split; [reflexivity|].
  split; [reflexivity|].
  exact (handshake_failure_rejects_doRun MoreSamples.run_app_initializing
           MoreSamples.not_ready "worker not ready"
           MoreSamples.after_not_ready eq_refl eq_refl).
Defined.








End SessionFacts.
